(** * Cross-validation tutorials: the notebooks as monadic scripts

    The repository holds two tutorials.  Each is a Jupyter notebook whose
    code cells run top to bottom in one Python kernel:

    - [Nested Versus Non-Nested Cross-Validation.ipynb]: thirty trials of a
      grid search scored with and without an outer cross-validation loop;
    - the rendered page of the "Cross Validated Predictions" notebook: one
      call of [cross_val_predict] and a scatter plot.

    The cells are embedded as programs of a state-and-exception monad over
    the kernel state.  Every call the cells make is logged, so that the
    order, the number and the arguments of the calls can be stated.  The
    functions the cells call belong to scikit-learn, NumPy and Plotly, none
    of which is part of the repository: the numerical kernels are taken as
    parameters (the class [Library]), and the cross-validation procedures
    built on them are modelled after the glossary of the specification and
    the text of the notebooks. *)

From Stdlib Require Import ZArith QArith Lia.
From stdpp Require Import base list strings sorting gmap.

Local Open Scope nat_scope.

(** ** Python exceptions and results *)

Inductive exn : Type :=
| ValueError (msg : string)
| IndexError (msg : string)
| ImportError (msg : string)
| NameError (name : string)
| OtherError (msg : string).

Inductive result (A : Type) : Type :=
| Ok (a : A)
| Raise (e : exn).
Arguments Ok {A} a.
Arguments Raise {A} e.

(** A computation over a mutable state [S] that may raise.  The state that
    was reached is kept when an exception is raised, as in Python. *)
Definition ST (S A : Type) : Type := S -> result A * S.

Definition ret {S A} (a : A) : ST S A := fun s => (Ok a, s).

Definition raise {S A} (e : exn) : ST S A := fun s => (Raise e, s).

Definition bind {S A B} (m : ST S A) (f : A -> ST S B) : ST S B :=
  fun s =>
    match m s with
    | (Ok a, s') => f a s'
    | (Raise e, s') => (Raise e, s')
    end.

Notation "x <- c ;; k" := (bind c (fun x => k))
  (at level 100, c at next level, right associativity).
Notation "c ;;; k" := (bind c (fun _ => k))
  (at level 100, right associativity).

(** [for x in xs: body x] *)
Fixpoint for_each {S A} (xs : list A) (body : A -> ST S unit) : ST S unit :=
  match xs with
  | [] => ret tt
  | x :: xs' => body x ;;; for_each xs' body
  end.

(** A list comprehension whose body may raise. *)
Fixpoint map_st {S A B} (f : A -> ST S B) (xs : list A) : ST S (list B) :=
  match xs with
  | [] => ret []
  | x :: xs' => b <- f x ;; bs <- map_st f xs' ;; ret (b :: bs)
  end.

(** [range(n)] *)
Definition range (n : nat) : list nat := seq 0 n.

(** ** Values, calls and events *)

(** Python numbers that appear as hyperparameter values. *)
Inductive pynum : Type :=
| PyInt (z : Z)
| PyFloat (q : Q).

(** The reductions of an array: [a.mean()], [a.std()], [a.min()],
    [a.max()]. *)
Inductive reduction : Type := r_mean | r_std | r_min | r_max.

(** The calls the cells make, with the arguments that identify them.
    Objects are named by the number they were given at their creation. *)
Inductive call : Type :=
| import_c (module : string)
| load_iris_c
| load_boston_c
| SVC_c (self : nat) (kernel : string)
| LinearRegression_c (self : nat)
| np_zeros_c (n : nat)
| KFold_c (self n_splits : nat) (shuffle : bool) (random_state : option Z)
| GridSearchCV_c (self estimator cv : nat)
| fit_c (self : nat)
| cross_val_score_c (estimator cv : nat)
| cross_val_predict_c (estimator cv : nat)
| reduce_c (op : reduction)
| subtract_c
| print_c
| make_subplots_c (rows cols : nat)
| Scatter_c
| Bar_c
| append_trace_c (row col : nat)
| update_c (target : string)
| Layout_c
| Figure_c
| iplot_c
| HTML_c
| display_c
| shell_c (cmd : string)
| publish_c.

(** What the log records: a call, the use of an array variable, an item
    assignment [a[i] = v], the binding of a variable to a new array. *)
Inductive event : Type :=
| Call (c : call)
| ReadVar (a : string)
| SetItem (a : string) (i : nat)
| Assign (a : string).

#[global] Instance reduction_eq_dec : EqDecision reduction.
Proof. solve_decision. Defined.

#[global] Instance call_eq_dec : EqDecision call.
Proof. solve_decision. Defined.

#[global] Instance event_eq_dec : EqDecision event.
Proof. solve_decision. Defined.

(** ** The libraries

    What the tutorials take from NumPy and scikit-learn as given.  [Float]
    stands for NumPy's float64, [Row] for one row of a feature matrix,
    [Label] for a class label, [RandomState] for the state of a NumPy
    random generator, [Model] for a fitted classifier and [Predictor] for a
    fitted regressor. *)
Class Library : Type := {
  Float : Type;
  Row : Type;
  Label : Type;
  RandomState : Type;
  Model : Type;
  Predictor : Type;
  (** [np.random.RandomState(seed)] and [RandomState.shuffle]. *)
  seeded : Z -> RandomState;
  rs_shuffle : RandomState -> list nat -> list nat * RandomState;
  (** NumPy reductions and arithmetic on float64. *)
  nd_mean : list Float -> Float;
  nd_std : list Float -> Float;
  nd_min : list Float -> Float;
  nd_max : list Float -> Float;
  f_sub : Float -> Float -> Float;
  f_zero : Float;
  f_leb : Float -> Float -> bool;
  (** [np.average(values, weights=counts)]. *)
  nd_average : list Float -> list nat -> Float;
  (** [SVC(...).fit(X, y)] and the mean accuracy [score(X, y)] of the
      fitted classifier; [LinearRegression().fit(X, y)] and [predict] of
      the fitted regressor on one row. *)
  svc_fit : string -> list (string * pynum) -> list (Row * Label) -> Model;
  model_score : Model -> list (Row * Label) -> Float;
  lr_fit : list (Row * Float) -> Predictor;
  lr_predict : Predictor -> Row -> Float;
  (** What the dataset loaders return. *)
  iris_data : list Row;
  iris_target : list Label;
  boston_data : list Row;
  boston_target : list Float
}.

(** ** A small instance of the libraries

    Rational numbers for floats, a threshold classifier for the support
    vector machine, the mean of the targets for the linear regression, a
    rotation for the shuffle.  It serves to run the notebooks on concrete
    data. *)
Module Sample.

Definition q_sum (l : list Q) : Q := foldr Qplus 0%Q l.

Definition q_mean (l : list Q) : Q :=
  Qred (q_sum l / inject_Z (Z.of_nat (length l))).

Definition q_max (l : list Q) : Q :=
  foldr (fun a b => if Qle_bool b a then a else b) 0%Q l.

Definition q_min (l : list Q) : Q :=
  foldr (fun a b => if Qle_bool a b then a else b) 0%Q l.

Definition q_spread (l : list Q) : Q := Qred (q_max l - q_min l).

Definition q_average (values : list Q) (weights : list nat) : Q :=
  Qred (q_sum (zip_with (fun v w => (v * inject_Z (Z.of_nat w))%Q) values weights)
        / inject_Z (Z.of_nat (foldr Nat.add 0 weights))).

Definition q_of (v : pynum) : Q :=
  match v with
  | PyInt z => inject_Z z
  | PyFloat q => q
  end.

(** The threshold moves with the parameters of the candidate. *)
Definition threshold (kernel : string) (params : list (string * pynum))
    (train : list (Q * bool)) : Q :=
  Qred (q_mean train.*1 + q_sum (map (fun kv => q_of kv.2) params) / 100).

Definition accuracy (t : Q) (test : list (Q * bool)) : Q :=
  q_mean (map (fun xy => if bool_decide (Qle_bool t xy.1 = xy.2)
                         then 1%Q else 0%Q) test).

Definition shuffle (g : nat) (l : list nat) : list nat * nat :=
  (rotate g l, S g).

#[local] Instance library : Library := {|
  Float := Q;
  Row := Q;
  Label := bool;
  RandomState := nat;
  Model := Q;
  Predictor := Q;
  seeded := Z.to_nat;
  rs_shuffle := shuffle;
  nd_mean := q_mean;
  nd_std := q_spread;
  nd_min := q_min;
  nd_max := q_max;
  f_sub := fun a b => Qred (a - b);
  f_zero := 0%Q;
  f_leb := Qle_bool;
  nd_average := q_average;
  svc_fit := threshold;
  model_score := accuracy;
  lr_fit := fun train => q_mean train.*2;
  lr_predict := fun p _ => p;
  iris_data := map inject_Z [1; 2; 3; 4; 5; 6; 7; 8]%Z;
  iris_target := [false; false; true; false; true; true; false; true];
  boston_data := map inject_Z [1; 2; 3; 4; 5; 6; 7; 8; 9; 10; 11; 12]%Z;
  boston_target := map inject_Z [3; 5; 4; 8; 9; 12; 11; 15; 18; 17; 21; 24]%Z
|}.

(** No call fails. *)
Definition no_fault : nat -> call -> option exn := fun _ _ => None.

End Sample.

Section Tutorials.

Context `{Library}.

(** ** Model of the cross-validation procedures

    The notebook describes them: "In the inner loop, the score is
    approximately maximized by fitting a model to each training set, and
    then directly maximized in selecting (hyper)parameters over the
    validation set.  In the outer loop, generalization error is estimated
    by averaging test set scores over several dataset splits." *)

(** The library computations run over NumPy's global generator. *)
Definition L := ST RandomState.

Definition lift {A} (r : result A) : L A := fun g => (r, g).

(** *** KFold *)

(** Modelled from the spec: the parameters of scikit-learn's [KFold]. *)
Record KFold : Type := mkKFold {
  n_splits : nat;
  shuffle : bool;
  random_state : option Z
}.

(** Modelled from the spec: the constructor of scikit-learn's [KFold],
    which is not part of the repository; "a resampling procedure that
    partitions data into folds".  It refuses fewer than two splits. *)
Definition KFold_init (n_splits : nat) (shuffle : bool)
    (random_state : option Z) : result KFold :=
  if decide (n_splits <= 1)
  then Raise (ValueError "k-fold cross-validation requires at least one train/test split")
  else Ok (mkKFold n_splits shuffle random_state).

(** Modelled from the spec: the sizes of the [k] folds of [n] samples in
    scikit-learn's [KFold].  The first [n mod k] folds have one sample more
    than the others. *)
Definition fold_sizes (n k : nat) : list nat :=
  map (fun j => n / k + (if decide (j < n mod k) then 1 else 0)) (seq 0 k).

(** Modelled from the spec: the folds of [KFold], consecutive slices of
    [l] of the given sizes. *)
Fixpoint slices (sizes : list nat) (l : list nat) : list (list nat) :=
  match sizes with
  | [] => []
  | s :: sizes' => take s l :: slices sizes' (drop s l)
  end.

(** Modelled from the spec: the order in which [KFold] cuts the sample
    indices into folds.  A splitter with an integer [random_state] shuffles
    with a generator of its own, seeded afresh at every split; one without
    uses, and advances, the global generator. *)
Definition fold_order (cv : KFold) (n : nat) : L (list nat) :=
  fun g =>
    if shuffle cv then
      match random_state cv with
      | Some seed => (Ok (fst (rs_shuffle (seeded seed) (seq 0 n))), g)
      | None => let '(p, g') := rs_shuffle g (seq 0 n) in (Ok p, g')
      end
    else (Ok (seq 0 n), g).

(** Modelled from the spec: the boolean mask over [0 .. n-1] of the test
    indices of a fold. *)
Definition test_mask (n : nat) (test_index : list nat) : list bool :=
  map (fun j => bool_decide (j ∈ test_index)) (seq 0 n).

(** Modelled from the spec: scikit-learn's [KFold.split], one test mask
    per fold; there must be a sample for every fold. *)
Definition split (cv : KFold) (n : nat) : L (list (list bool)) :=
  if decide (n < n_splits cv)
  then raise (ValueError "Cannot have number of splits greater than the number of samples")
  else
    order <- fold_order cv n ;;
    ret (map (test_mask n) (slices (fold_sizes n (n_splits cv)) order)).

(** Modelled from the spec: NumPy's selection of the rows of an array by
    a mask, [X[test]] and [X[train]]. *)
Fixpoint select {A} (mask : list bool) (xs : list A) : list A :=
  match mask, xs with
  | b :: mask', x :: xs' =>
      if b then x :: select mask' xs' else select mask' xs'
  | _, _ => []
  end.

Definition test_rows {A} (mask : list bool) (xs : list A) : list A :=
  select mask xs.

Definition train_rows {A} (mask : list bool) (xs : list A) : list A :=
  select (map negb mask) xs.

(** Modelled from the spec: scikit-learn's [indexable(X, y)]; the two
    arrays must have the same length. *)
Definition indexable {A B} (X : list A) (y : list B) : L (list (A * B)) :=
  if decide (length X = length y)
  then ret (zip X y)
  else raise (ValueError "Found input variables with inconsistent numbers of samples").

(** *** Grid search *)

(** A parameter grid is a Python dict from names to lists of values; a
    candidate is a dict from names to values. *)
Definition grid : Type := list (string * list pynum).
Definition candidate : Type := list (string * pynum).

(** The order of the names of a grid. *)
Definition key_le {V} (a b : string * V) : Prop := String.leb a.1 b.1 = true.

#[global] Instance key_le_dec {V} : RelDecision (@key_le V) :=
  fun a b => decide (String.leb a.1 b.1 = true).

(** Modelled from the spec: the combinations of a grid, as
    [itertools.product] lists them. *)
Fixpoint product (items : grid) : list candidate :=
  match items with
  | [] => [[]]
  | (name, values) :: items' =>
      flat_map (fun v => map (fun c => (name, v) :: c) (product items')) values
  end.

(** Modelled from the spec: scikit-learn's [ParameterGrid(param_grid)],
    "a specified set of hyperparameter values": the names in sorted order,
    the last name varying fastest. *)
Definition ParameterGrid (param_grid : grid) : list candidate :=
  product (merge_sort key_le param_grid).

(** Modelled from the spec: an unfitted [SVC] is its parameters. *)
Record SVC : Type := mkSVC {
  kernel : string;
  svc_params : candidate
}.

(** Modelled from the spec: scikit-learn's [clone(estimator)] with the
    parameters of a candidate set. *)
Definition set_params (est : SVC) (params : candidate) : SVC :=
  mkSVC (kernel est)
    (params ++ filter (fun kv => kv.1 ∉ params.*1) (svc_params est)).

(** [est.fit(X, y)] *)
Definition SVC_fit (est : SVC) (train : list (Row * Label)) : Model :=
  svc_fit (kernel est) (svc_params est) train.

(** Modelled from the spec: an unfitted [GridSearchCV] is its arguments. *)
Record GridSearchCV : Type := mkGridSearchCV {
  estimator : SVC;
  param_grid : grid;
  cv : KFold
}.

(** Modelled from the spec: what [GridSearchCV.fit] leaves in the
    searcher. *)
Record GridSearchFitted : Type := mkFitted {
  candidates_ : list candidate;
  mean_test_score_ : list Float;
  best_index_ : nat;
  best_params_ : candidate;
  best_score_ : Float;
  best_estimator_ : Model
}.

(** Modelled from the spec: the validation score of one candidate in
    [GridSearchCV.fit].  The estimator with these parameters is fitted on
    the training rows of every fold and scored on its test rows; the fold
    scores are averaged, weighted by the sizes of the test folds. *)
Definition validation_score (est : SVC) (data : list (Row * Label))
    (masks : list (list bool)) (params : candidate) : Float :=
  nd_average
    (map (fun m => model_score (SVC_fit (set_params est params) (train_rows m data))
                               (test_rows m data)) masks)
    (map (fun m => length (test_rows m data)) masks).

(** Modelled from the spec: "selecting the combination with best
    validation score".  The first index holding a largest value. *)
Fixpoint argmax_from (best_i : nat) (best : Float) (i : nat)
    (scores : list Float) : nat * Float :=
  match scores with
  | [] => (best_i, best)
  | s :: scores' =>
      if f_leb s best then argmax_from best_i best (S i) scores'
      else argmax_from i s (S i) scores'
  end.

(** Modelled from the spec: NumPy's [argmax], with the value found. *)
Definition argmax (scores : list Float) : option (nat * Float) :=
  match scores with
  | [] => None
  | s :: scores' => Some (argmax_from 0 s 1 scores')
  end.

(** Modelled from the spec: scikit-learn's [GridSearchCV.fit] is not part
    of the repository; "exhaustive search over a specified set of
    hyperparameter values, selecting the combination with best validation
    score".  The best candidate is refitted on all the rows given. *)
Definition GridSearchCV_fit (gs : GridSearchCV) (X : list Row)
    (y : list Label) : L GridSearchFitted :=
  data <- indexable X y ;;
  masks <- split (cv gs) (length data) ;;
  let candidates := ParameterGrid (param_grid gs) in
  let means := map (validation_score (estimator gs) data masks) candidates in
  match argmax means with
  | None => raise (ValueError "No candidates in the parameter grid")
  | Some (i, best) =>
      match candidates !! i with
      | None => raise (IndexError "index out of bounds")
      | Some params =>
          ret (mkFitted candidates means i params best
                 (SVC_fit (set_params (estimator gs) params) data))
      end
  end.

(** *** Cross-validated scores and predictions *)

(** Modelled from the spec: scikit-learn's [cross_val_score] is not part
    of the repository; "cross-validation performed in two loops, an inner
    loop for hyperparameter selection and an outer loop for unbiased
    performance estimation".  For every fold of [cv] a clone of the
    searcher is fitted on the training rows and its best estimator is
    scored on the test rows. *)
Definition cross_val_score (gs : GridSearchCV) (X : list Row)
    (y : list Label) (cv : KFold) : L (list Float) :=
  data <- indexable X y ;;
  masks <- split cv (length data) ;;
  map_st (fun m =>
            let train := train_rows m data in
            let test := test_rows m data in
            fitted <- GridSearchCV_fit gs train.*1 train.*2 ;;
            ret (model_score (best_estimator_ fitted) test))
         masks.

(** Modelled from the spec: the test indices of a fold in
    [cross_val_predict], in increasing order. *)
Definition mask_indices (mask : list bool) : list nat :=
  select mask (seq 0 (length mask)).

(** Modelled from the spec: the inverse of the permutation [locs] in
    [cross_val_predict], the position of [j] in [locs]. *)
Fixpoint index_of (j : nat) (locs : list nat) : nat :=
  match locs with
  | [] => 0
  | l :: locs' => if decide (l = j) then 0 else S (index_of j locs')
  end.

(** Modelled from the spec: scikit-learn's [_check_is_partition(locs, n)]. *)
Definition check_is_partition (locs : list nat) (n : nat) : bool :=
  bool_decide (length locs = n) &&
  forallb (fun j => bool_decide (j ∈ locs)) (seq 0 n).

(** Modelled from the spec: NumPy's indexing of an array by an array of
    positions, [preds[inv_locs]]. *)
Definition take_at {A} (xs : list A) (positions : list nat) : L (list A) :=
  map_st (fun p => match xs !! p with
                   | Some x => ret x
                   | None => raise (IndexError "index out of bounds")
                   end) positions.

(** Modelled from the spec: scikit-learn's [cross_val_predict] is not part
    of the repository; the page's code says it "returns an array of the
    same size as `y` where each entry is a prediction obtained by cross
    validated".  An integer [cv] stands for an unshuffled [KFold]; the
    predictions of the test folds are put back in the order of the
    samples. *)
Definition cross_val_predict (X : list Row) (y : list Float)
    (cv : nat) : L (list Float) :=
  data <- indexable X y ;;
  folds <- lift (KFold_init cv false None) ;;
  masks <- split folds (length data) ;;
  let preds_blocks :=
    map (fun m => (map (lr_predict (lr_fit (train_rows m data)))
                       (test_rows m data).*1,
                   mask_indices m)) masks in
  let preds := concat preds_blocks.*1 in
  let locs := concat preds_blocks.*2 in
  if check_is_partition locs (length data) then
    let inv_locs := map (fun j => index_of j locs) (seq 0 (length locs)) in
    take_at preds inv_locs
  else raise (ValueError "cross_val_predict only works for partitions").

(** Modelled from the spec: NumPy's [a - b] on arrays.  It is elementwise,
    and an array of one element is broadcast. *)
Definition nd_subtract (a b : list Float) : result (list Float) :=
  if decide (length a = length b) then Ok (zip_with f_sub a b)
  else match a, b with
       | [x], _ => Ok (map (f_sub x) b)
       | _, [y] => Ok (map (fun x => f_sub x y) a)
       | _, _ => Raise (ValueError "operands could not be broadcast together")
       end.

(** ** The notebook session *)

Record session : Type := mkSession {
  np_random : RandomState;
  log : list (event * option exn);
  next_obj : nat;
  arrays : gmap string (list Float)
}.

Definition M := ST session.

(** [fault n c] is the exception, if any, with which the call [c], made as
    the [n]-th event of the run, fails for a reason the model does not
    compute: malformed data, a missing file, no network. *)
Variable fault : nat -> call -> option exn.

(** Appends an event and its status to the log. *)
Definition record (ev : event) (status : option exn) (k : session) : session :=
  mkSession (np_random k) (log k ++ [(ev, status)]) (next_obj k) (arrays k).

Definition status_of {A} (r : result A) : option exn :=
  match r with
  | Ok _ => None
  | Raise e => Some e
  end.

(** A call of a library function: it fails as [fault] says, or runs its
    body over the global generator; either way it is logged with its
    status. *)
Definition invoke {A} (c : call) (body : L A) : M A :=
  fun k =>
    match fault (length (log k)) c with
    | Some e => (Raise e, record (Call c) (Some e) k)
    | None =>
        let '(r, g) := body (np_random k) in
        (r, record (Call c) (status_of r)
              (mkSession g (log k) (next_obj k) (arrays k)))
    end.

(** A shell escape [! cmd]: IPython runs the command and goes on whatever
    its exit status. *)
Definition shell (cmd : string) : M unit :=
  fun k => (Ok tt, record (Call (shell_c cmd)) None k).

(** The identity of the next object constructed. *)
Definition new_obj : M nat :=
  fun k => (Ok (next_obj k),
            mkSession (np_random k) (log k) (S (next_obj k)) (arrays k)).

(** Reading the array bound to a name; an unbound name raises. *)
Definition read_var (a : string) : M (list Float) :=
  fun k =>
    match arrays k !! a with
    | Some v => (Ok v, record (ReadVar a) None k)
    | None => (Raise (NameError a), record (ReadVar a) (Some (NameError a)) k)
    end.

(** [a = v] *)
Definition assign (a : string) (v : list Float) : M unit :=
  fun k =>
    (Ok tt, record (Assign a) None
              (mkSession (np_random k) (log k) (next_obj k) (<[a:=v]> (arrays k)))).

(** [a[i] = v]; Python raises [IndexError] out of range. *)
Definition setitem (a : string) (i : nat) (v : Float) : M unit :=
  fun k =>
    match arrays k !! a with
    | None => (Raise (NameError a), record (SetItem a i) (Some (NameError a)) k)
    | Some arr =>
        if decide (i < length arr) then
          (Ok tt, record (SetItem a i) None
                    (mkSession (np_random k) (log k) (next_obj k)
                       (<[a:=<[i:=v]> arr]> (arrays k))))
        else
          (Raise (IndexError "index out of bounds"),
           record (SetItem a i) (Some (IndexError "index out of bounds")) k)
    end.

(** An object together with its identity. *)
Record ref (A : Type) : Type := mkRef { oid : nat; obj : A }.
Arguments mkRef {A} oid obj.
Arguments oid {A} r.
Arguments obj {A} r.

Definition py_import (module : string) : M unit :=
  invoke (import_c module) (ret tt).

Definition py_load_iris : M (list Row * list Label) :=
  invoke load_iris_c (ret (iris_data, iris_target)).

Definition py_load_boston : M (list Row * list Float) :=
  invoke load_boston_c (ret (boston_data, boston_target)).

Definition py_SVC (kernel : string) : M (ref SVC) :=
  self <- new_obj ;;
  invoke (SVC_c self kernel) (ret (mkRef self (mkSVC kernel []))).

Definition py_LinearRegression : M nat :=
  self <- new_obj ;;
  invoke (LinearRegression_c self) (ret self).

(** Modelled from the spec: NumPy's [np.zeros(n)], an array of [n]
    zeros. *)
Definition py_np_zeros (n : nat) : M (list Float) :=
  invoke (np_zeros_c n) (ret (replicate n f_zero)).

Definition py_KFold (n_splits : nat) (shuffle : bool)
    (random_state : option Z) : M (ref KFold) :=
  self <- new_obj ;;
  invoke (KFold_c self n_splits shuffle random_state)
    (cv <- lift (KFold_init n_splits shuffle random_state) ;;
     ret (mkRef self cv)).

Definition py_GridSearchCV (estimator : ref SVC) (param_grid : grid)
    (cv : ref KFold) : M (ref GridSearchCV) :=
  self <- new_obj ;;
  invoke (GridSearchCV_c self (oid estimator) (oid cv))
    (ret (mkRef self (mkGridSearchCV (obj estimator) param_grid (obj cv)))).

Definition py_fit (clf : ref GridSearchCV) (X : list Row) (y : list Label)
    : M GridSearchFitted :=
  invoke (fit_c (oid clf)) (GridSearchCV_fit (obj clf) X y).

Definition py_cross_val_score (clf : ref GridSearchCV) (X : list Row)
    (y : list Label) (cv : ref KFold) : M (list Float) :=
  invoke (cross_val_score_c (oid clf) (oid cv))
    (cross_val_score (obj clf) X y (obj cv)).

Definition py_cross_val_predict (lr : nat) (X : list Row) (y : list Float)
    (cv : nat) : M (list Float) :=
  invoke (cross_val_predict_c lr cv) (cross_val_predict X y cv).

Definition reduce (op : reduction) (a : list Float) : Float :=
  match op with
  | r_mean => nd_mean a
  | r_std => nd_std a
  | r_min => nd_min a
  | r_max => nd_max a
  end.

Definition py_reduce (op : reduction) (a : list Float) : M Float :=
  invoke (reduce_c op) (ret (reduce op a)).

Definition py_subtract (a b : list Float) : M (list Float) :=
  invoke subtract_c (lift (nd_subtract a b)).

Definition py_print : M unit := invoke print_c (ret tt).

(** *** Plotly figures *)

(** Modelled from the spec: Plotly's traces and figures, which are not
    part of the repository; a figure is a grid of cells and the traces
    placed in them. *)
Inductive trace : Type :=
| Scatter (x : option (list Float)) (y : list Float) (mode name : option string)
| Bar (x : list nat) (y : list Float).

Record figure : Type := mkFigure {
  grid_rows : nat;
  grid_cols : nat;
  traces : list (trace * (nat * nat))
}.

Definition py_make_subplots (rows cols : nat) : M figure :=
  invoke (make_subplots_c rows cols) (ret (mkFigure rows cols [])).

Definition py_Scatter (x : option (list Float)) (y : list Float)
    (mode name : option string) : M trace :=
  invoke Scatter_c (ret (Scatter x y mode name)).

Definition py_Bar (x : list nat) (y : list Float) : M trace :=
  invoke Bar_c (ret (Bar x y)).

(** Modelled from the spec: Plotly's [fig.append_trace(t, row, col)]; the
    cell must be one of the grid. *)
Definition py_append_trace (fig : figure) (t : trace) (row col : nat) : M figure :=
  invoke (append_trace_c row col)
    (if decide (1 <= row <= grid_rows fig /\ 1 <= col <= grid_cols fig)
     then ret (mkFigure (grid_rows fig) (grid_cols fig)
                 (traces fig ++ [(t, (row, col))]))
     else raise (OtherError "The (row, col) pair sent is out of range")).

Definition py_update (target : string) : M unit :=
  invoke (update_c target) (ret tt).

Definition py_Layout : M unit := invoke Layout_c (ret tt).

(** Modelled from the spec: Plotly's [go.Figure(data=..., layout=...)], a
    figure of one cell. *)
Definition py_Figure (data : list trace) : M figure :=
  invoke Figure_c (ret (mkFigure 1 1 (map (fun t => (t, (1, 1))) data))).

Definition py_iplot (fig : figure) : M unit := invoke iplot_c (ret tt).

Definition py_display_HTML : M unit :=
  invoke HTML_c (ret tt) ;;; invoke display_c (ret tt).

Definition py_publish : M unit := invoke publish_c (ret tt).

(** ** Nested Versus Non-Nested Cross-Validation.ipynb *)

(** Number of random trials *)
Definition NUM_TRIALS : nat := 30.

(** Set up possible values of parameters to optimize over *)
Definition p_grid : grid :=
  [("C", [PyInt 1; PyInt 10; PyInt 100]);
   ("gamma", [PyFloat (1 # 100); PyFloat (1 # 10)])].

Definition version_cell : M unit := py_import "sklearn".

Definition imports_cell : M unit :=
  py_import "plotly.plotly" ;;;
  py_import "plotly.graph_objs" ;;;
  py_import "plotly.tools" ;;;
  py_import "sklearn.datasets" ;;;
  py_import "sklearn.svm" ;;;
  py_import "sklearn.model_selection" ;;;
  py_import "numpy".

(** One pass of the body of [for i in range(NUM_TRIALS)]. *)
Definition trial (svr : ref SVC) (X_iris : list Row) (y_iris : list Label)
    (i : nat) : M unit :=
  inner_cv <- py_KFold 4 true (Some (Z.of_nat i)) ;;
  outer_cv <- py_KFold 4 true (Some (Z.of_nat i)) ;;
  (* Non_nested parameter search and scoring *)
  clf <- py_GridSearchCV svr p_grid inner_cv ;;
  fitted <- py_fit clf X_iris y_iris ;;
  setitem "non_nested_scores" i (best_score_ fitted) ;;;
  (* Nested CV with parameter optimization *)
  nested_score <- py_cross_val_score clf X_iris y_iris outer_cv ;;
  assign "nested_score" nested_score ;;;
  nested_score <- read_var "nested_score" ;;
  mean <- py_reduce r_mean nested_score ;;
  setitem "nested_scores" i mean.

Definition calculations : M unit :=
  iris <- py_load_iris ;;
  let X_iris := iris.1 in
  let y_iris := iris.2 in
  svr <- py_SVC "rbf" ;;
  zeros <- py_np_zeros NUM_TRIALS ;;
  assign "non_nested_scores" zeros ;;;
  zeros <- py_np_zeros NUM_TRIALS ;;
  assign "nested_scores" zeros ;;;
  for_each (range NUM_TRIALS) (trial svr X_iris y_iris) ;;;
  non_nested_scores <- read_var "non_nested_scores" ;;
  nested_scores <- read_var "nested_scores" ;;
  difference <- py_subtract non_nested_scores nested_scores ;;
  assign "score_difference" difference ;;;
  score_difference <- read_var "score_difference" ;;
  _ <- py_reduce r_mean score_difference ;;
  score_difference <- read_var "score_difference" ;;
  _ <- py_reduce r_std score_difference ;;
  py_print.

Definition plot_results : M figure :=
  fig <- py_make_subplots 2 1 ;;
  non_nested_scores <- read_var "non_nested_scores" ;;
  non_nested_scores_line <-
    py_Scatter None non_nested_scores (Some "lines") (Some "Non-Nested CV") ;;
  fig <- py_append_trace fig non_nested_scores_line 1 1 ;;
  nested_scores <- read_var "nested_scores" ;;
  nested_line <- py_Scatter None nested_scores (Some "lines") (Some "Nested CV") ;;
  fig <- py_append_trace fig nested_line 1 1 ;;
  py_update "yaxis1" ;;;
  py_update "layout" ;;;
  (* Plot bar chart of the difference. *)
  score_difference <- read_var "score_difference" ;;
  difference_plot <- py_Bar (range NUM_TRIALS) score_difference ;;
  fig <- py_append_trace fig difference_plot 2 1 ;;
  py_update "xaxis2" ;;;
  py_update "yaxis2" ;;;
  ret fig.

Definition publish_cell : M unit :=
  py_import "IPython.display" ;;;
  py_display_HTML ;;;
  py_display_HTML ;;;
  shell "pip install git+https://github.com/plotly/publisher.git --upgrade" ;;;
  py_import "publisher" ;;;
  py_publish.

(** The code cells of the notebook, top to bottom. *)
Definition nested_notebook : M unit :=
  version_cell ;;;
  imports_cell ;;;
  calculations ;;;
  fig <- plot_results ;;
  py_iplot fig ;;;
  publish_cell.

(** ** The Cross Validated Predictions page *)

Definition cv_predict_imports : M unit :=
  py_import "plotly.plotly" ;;;
  py_import "plotly.graph_objs" ;;;
  py_import "sklearn.datasets" ;;;
  py_import "sklearn.cross_validation" ;;;
  py_import "sklearn.linear_model".

Definition cv_predict_calculations : M unit :=
  lr <- py_LinearRegression ;;
  boston <- py_load_boston ;;
  assign "y" boston.2 ;;;
  y <- read_var "y" ;;
  predicted <- py_cross_val_predict lr boston.1 y 10 ;;
  assign "predicted" predicted.

Definition cv_predict_plot : M unit :=
  y <- read_var "y" ;;
  predicted <- read_var "predicted" ;;
  trace1 <- py_Scatter (Some y) predicted (Some "markers") None ;;
  y <- read_var "y" ;;
  x_min <- py_reduce r_min y ;;
  y <- read_var "y" ;;
  x_max <- py_reduce r_max y ;;
  y <- read_var "y" ;;
  y_min <- py_reduce r_min y ;;
  y <- read_var "y" ;;
  y_max <- py_reduce r_max y ;;
  trace2 <- py_Scatter (Some [x_min; x_max]) [y_min; y_max] None None ;;
  py_Layout ;;;
  fig <- py_Figure [trace1; trace2] ;;
  py_iplot fig.

Definition cv_predict_page : M unit :=
  cv_predict_imports ;;;
  cv_predict_calculations ;;;
  cv_predict_plot.

(** A fresh kernel: nothing logged, no object created, no variable bound. *)
Definition fresh (g : RandomState) : session := mkSession g [] 0 ∅.

(** "Run all" in a fresh kernel whose global generator is in the state [g]. *)
Definition run_nested (g : RandomState) : result unit * session :=
  nested_notebook (fresh g).

Definition run_cv_predict (g : RandomState) : result unit * session :=
  cv_predict_page (fresh g).

(** ** What a run logs when nothing raises *)

(** The events of the trial [i]; [o] is the number of objects created before
    it and [svr] the number of the classifier. *)
Definition trial_events (svr o i : nat) : list event :=
  [ Call (KFold_c o 4 true (Some (Z.of_nat i)));
    Call (KFold_c (S o) 4 true (Some (Z.of_nat i)));
    Call (GridSearchCV_c (S (S o)) svr o);
    Call (fit_c (S (S o)));
    SetItem "non_nested_scores" i;
    Call (cross_val_score_c (S (S o)) (S o));
    Assign "nested_score";
    ReadVar "nested_score";
    Call (reduce_c r_mean);
    SetItem "nested_scores" i ].

(** The events before the loop of the trials. *)
Definition opening_events : list event :=
  [ Call (import_c "sklearn");
    Call (import_c "plotly.plotly");
    Call (import_c "plotly.graph_objs");
    Call (import_c "plotly.tools");
    Call (import_c "sklearn.datasets");
    Call (import_c "sklearn.svm");
    Call (import_c "sklearn.model_selection");
    Call (import_c "numpy");
    Call load_iris_c;
    Call (SVC_c 0 "rbf");
    Call (np_zeros_c 30);
    Assign "non_nested_scores";
    Call (np_zeros_c 30);
    Assign "nested_scores" ].

(** The events after it: the difference of the scores, the figure, the
    publication. *)
Definition closing_events : list event :=
  [ ReadVar "non_nested_scores";
    ReadVar "nested_scores";
    Call subtract_c;
    Assign "score_difference";
    ReadVar "score_difference";
    Call (reduce_c r_mean);
    ReadVar "score_difference";
    Call (reduce_c r_std);
    Call print_c;
    Call (make_subplots_c 2 1);
    ReadVar "non_nested_scores";
    Call Scatter_c;
    Call (append_trace_c 1 1);
    ReadVar "nested_scores";
    Call Scatter_c;
    Call (append_trace_c 1 1);
    Call (update_c "yaxis1");
    Call (update_c "layout");
    ReadVar "score_difference";
    Call Bar_c;
    Call (append_trace_c 2 1);
    Call (update_c "xaxis2");
    Call (update_c "yaxis2");
    Call iplot_c;
    Call (import_c "IPython.display");
    Call HTML_c;
    Call display_c;
    Call HTML_c;
    Call display_c;
    Call (shell_c "pip install git+https://github.com/plotly/publisher.git --upgrade");
    Call (import_c "publisher");
    Call publish_c ].

Definition trials_events : list event :=
  flat_map (fun i => trial_events 0 (1 + 3 * i) i) (range NUM_TRIALS).

Definition nested_events : list event :=
  opening_events ++ trials_events ++ closing_events.

Definition cv_predict_events : list event :=
  [ Call (import_c "plotly.plotly");
    Call (import_c "plotly.graph_objs");
    Call (import_c "sklearn.datasets");
    Call (import_c "sklearn.cross_validation");
    Call (import_c "sklearn.linear_model");
    Call (LinearRegression_c 0);
    Call load_boston_c;
    Assign "y";
    ReadVar "y";
    Call (cross_val_predict_c 0 10);
    Assign "predicted";
    ReadVar "y";
    ReadVar "predicted";
    Call Scatter_c;
    ReadVar "y";
    Call (reduce_c r_min);
    ReadVar "y";
    Call (reduce_c r_max);
    ReadVar "y";
    Call (reduce_c r_min);
    ReadVar "y";
    Call (reduce_c r_max);
    Call Scatter_c;
    Call Layout_c;
    Call Figure_c;
    Call iplot_c ].

(** Events that went through without an exception. *)
Definition quiet (evs : list event) : list (event * option exn) :=
  (fun ev => (ev, None)) <$> evs.

(** The splitter and the searcher that the trial [i] builds. *)
Definition trial_cv (i : nat) : KFold := mkKFold 4 true (Some (Z.of_nat i)).

Definition trial_clf (svr : SVC) (i : nat) : GridSearchCV :=
  mkGridSearchCV svr p_grid (trial_cv i).

(** The loop from the trial [a] on, for [n] trials, [o] objects having been
    created before. *)
Fixpoint trials_from (svr o a n : nat) : list event :=
  match n with
  | 0 => []
  | S n' => trial_events svr o a ++ trials_from svr (3 + o) (S a) n'
  end.

(** What the trial [j] leaves in the two arrays of scores: the best score
    of the search fitted on all the rows, and the mean of the scores of the
    outer folds. *)
Definition trial_outcome (svr : SVC) (X : list Row) (y : list Label)
    (j : nat) (nn ns : list Float) : Prop :=
  exists fitted scores g1 g2 g3,
    GridSearchCV_fit (trial_clf svr j) X y g1 = (Ok fitted, g2) /\
    cross_val_score (trial_clf svr j) X y (trial_cv j) g2 = (Ok scores, g3) /\
    nn !! j = Some (best_score_ fitted) /\
    ns !! j = Some (nd_mean scores).

(** ** Reading a log *)

Definition events (l : list (event * option exn)) : list event := l.*1.

Definition call_of (ev : event) : option call :=
  match ev with
  | Call c => Some c
  | _ => None
  end.

Definition calls (l : list (event * option exn)) : list call :=
  omap call_of (events l).

(** The calls that build or run a cross-validation. *)
Definition is_cv_call (c : call) : bool :=
  match c with
  | KFold_c _ _ _ _ | GridSearchCV_c _ _ _ | fit_c _
  | cross_val_score_c _ _ | cross_val_predict_c _ _ => true
  | _ => false
  end.

(** The calls that have the object [o] as their receiver or among their
    arguments. *)
Definition mentions (o : nat) (c : call) : bool :=
  match c with
  | SVC_c self _ | LinearRegression_c self | KFold_c self _ _ _ | fit_c self =>
      bool_decide (self = o)
  | GridSearchCV_c self estimator cv =>
      bool_decide (self = o) || bool_decide (estimator = o) || bool_decide (cv = o)
  | cross_val_score_c estimator cv =>
      bool_decide (estimator = o) || bool_decide (cv = o)
  | cross_val_predict_c estimator _ => bool_decide (estimator = o)
  | _ => false
  end.

Definition uses_of (o : nat) (l : list (event * option exn)) : list call :=
  filter (fun c => mentions o c = true) (calls l).

(** The parameters a splitter was constructed with. *)
Definition kfold_params (c : call) : option (nat * bool * option Z) :=
  match c with
  | KFold_c _ n_splits shuffle random_state =>
      Some (n_splits, shuffle, random_state)
  | _ => None
  end.

(** The stages of a tutorial.  Imports, constructors, array arithmetic and
    printing belong to none. *)
Inductive stage : Type :=
| LoadData
| FitEvaluate
| RenderChart
| PublishPage.

#[global] Instance stage_eq_dec : EqDecision stage.
Proof. solve_decision. Defined.

Definition stage_of (c : call) : option stage :=
  match c with
  | load_iris_c | load_boston_c => Some LoadData
  | fit_c _ | cross_val_score_c _ _ | cross_val_predict_c _ _ => Some FitEvaluate
  | make_subplots_c _ _ | Scatter_c | Bar_c | append_trace_c _ _ | update_c _
  | Layout_c | Figure_c | iplot_c => Some RenderChart
  | HTML_c | display_c | shell_c _ | publish_c => Some PublishPage
  | _ => None
  end.

Definition stages (l : list (event * option exn)) : list stage :=
  omap stage_of (calls l).

(** "Load the dataset, then fit/evaluate models in a simple loop, then
    render a chart, then exit." *)
Definition load_fit_render (ss : list stage) : Prop :=
  exists n m,
    ss = [LoadData] ++ replicate n FitEvaluate ++ replicate m RenderChart.

(** Input and output of a call.  [py.iplot] sends the figure to the plotting
    service; the shell command of the notebook installs a package from a
    git URL; the dataset loaders read the files that come with
    scikit-learn; [publisher.publish] writes the page.  The loading of
    modules by the interpreter is left out. *)
Inductive io : Type :=
| Network
| Disk
| Console.

#[global] Instance io_eq_dec : EqDecision io.
Proof. solve_decision. Defined.

Definition io_of (c : call) : option io :=
  match c with
  | iplot_c | shell_c _ => Some Network
  | load_iris_c | load_boston_c | publish_c => Some Disk
  | print_c | display_c => Some Console
  | _ => None
  end.

Definition io_calls (l : list (event * option exn)) : list (call * io) :=
  omap (fun c => pair c <$> io_of c) (calls l).

(** "No blocking I/O beyond a single network call to the plotting service." *)
Definition only_plotting_io (l : list (event * option exn)) : Prop :=
  io_calls l = [(iplot_c, Network)].

(** How often an array variable is read, and an item of it assigned. *)
Definition reads_of (a : string) (evs : list event) : nat :=
  length (filter (fun ev => ev = ReadVar a) evs).

Definition writes_of (a : string) (i : nat) (evs : list event) : nat :=
  length (filter (fun ev => ev = SetItem a i) evs).

(** "Every entry of non_nested_scores and nested_scores is written exactly
    once, and each array is consumed exactly once afterwards." *)
Definition written_once_read_once (evs : list event) : Prop :=
  forall a, a ∈ ["non_nested_scores"; "nested_scores"] ->
    (forall i, i < NUM_TRIALS -> writes_of a i evs = 1) /\
    reads_of a evs = 1.

(** ** Exceptions in a log *)

(** No event of the log raised. *)
Definition clean (l : list (event * option exn)) : Prop :=
  Forall (fun e => e.2 = None) l.

(** The last event of the log raised [e], and none before it raised. *)
Definition raised_last (e : exn) (l : list (event * option exn)) : Prop :=
  exists pre ev, l = pre ++ [(ev, Some e)] /\ clean pre.

Definition outcome_logged {A} (r : result A * session) : Prop :=
  match r with
  | (Ok _, k) => clean (log k)
  | (Raise e, k) => raised_last e (log k)
  end.

(** A program that lets every exception through: it stops at the first
    event that raises, with that exception. *)
Definition propagates {A} (m : M A) : Prop :=
  forall k, clean (log k) -> outcome_logged (m k).

(** ** Independence of the global generator *)

Definition reseed (g : RandomState) (k : session) : session :=
  mkSession g (log k) (next_obj k) (arrays k).

(** A splitter that shuffles with a generator of its own, or not at all. *)
Definition own_generator (cv : KFold) : Prop :=
  shuffle cv = true -> random_state cv <> None.

(** A library computation that neither reads nor advances the global
    generator. *)
Definition generator_free {A} (body : L A) : Prop :=
  exists r, forall g, body g = (r, g).

(** A program whose run is the same whatever the state of the global
    generator, which it leaves as it was. *)
Definition seeded_run {A} (m : M A) : Prop :=
  forall k g, m (reseed g k) = ((m k).1, reseed g (m k).2).

(** ** Runs that return *)

(** No call fails for a reason outside the model. *)
Definition no_faults : Prop := forall n c, fault n c = None.

(** From every session whose variables satisfy [P] the program returns, in
    a session whose variables satisfy [Q]. *)
Definition returns {A} (P : gmap string (list Float) -> Prop) (m : M A)
    (Q : gmap string (list Float) -> Prop) : Prop :=
  forall k, P (arrays k) -> exists a k', m k = (Ok a, k') /\ Q (arrays k').

(** The two arrays of scores are bound and have an entry for every trial. *)
Definition scores_bound (arrs : gmap string (list Float)) : Prop :=
  exists nn ns,
    arrs !! "non_nested_scores" = Some nn /\ length nn = NUM_TRIALS /\
    arrs !! "nested_scores" = Some ns /\ length ns = NUM_TRIALS.

(** The three arrays that the plotting cell reads are bound. *)
Definition scores_ready (arrs : gmap string (list Float)) : Prop :=
  scores_bound arrs /\ is_Some (arrs !! "score_difference").

(** What a step leaves of the session: one more event, and the rest as
    stated. *)
Definition steps_to (k k' : session) (ev : event) (objs : nat)
    (arrs : gmap string (list Float)) : Prop :=
  log k' = log k ++ [(ev, None)] /\ next_obj k' = objs /\ arrays k' = arrs.

(** ** Runs that may fail *)


(** The program [m], started when [o] objects have been created, logs the
    events [evs] in this order and has created [o'] objects when it returns,
    and what it returns satisfies [Q]; when it raises it has logged an
    initial segment of [evs]. *)
Definition follows {A} (m : M A) (o : nat) (evs : list event) (o' : nat)
    (Q : A -> Prop) : Prop :=
  forall k, next_obj k = o ->
    match m k with
    | (Ok a, k') =>
        events (log k') = events (log k) ++ evs /\ next_obj k' = o' /\ Q a
    | (Raise _, k') =>
        exists pre, pre `prefix_of` evs /\
                    events (log k') = events (log k) ++ pre
    end.

(** The two arrays of scores have an entry for every trial, and an entry
    whose assignment is not in the log is zero, as [np.zeros] left it. *)
Definition zero_until_written (k : session) : Prop :=
  forall a arr, a ∈ ["non_nested_scores"; "nested_scores"] ->
    arrays k !! a = Some arr ->
    length arr = NUM_TRIALS /\
    forall i, i < NUM_TRIALS -> (SetItem a i, None) ∉ log k ->
      arr !! i = Some f_zero.

(** A program that keeps an invariant of the session, whether it returns or
    raises. *)
Definition keeps {A} (I : session -> Prop) (m : M A) : Prop :=
  forall k, I k -> I (m k).2.


(** ** Stepping through a run that returns *)

Lemma bind_Ok {S A B} (m : ST S A) (f : A -> ST S B) s b s' :
  bind m f s = (Ok b, s') ->
  exists a s1, m s = (Ok a, s1) /\ f a s1 = (Ok b, s').
Proof.
  unfold bind. destruct (m s) as [[a|e] s1]; [eauto | discriminate].
Qed.

Lemma ret_Ok {S A} (a b : A) (s s' : S) :
  ret a s = (Ok b, s') -> b = a /\ s' = s.
Proof. unfold ret. intros [= <- <-]. split; reflexivity. Qed.

Ltac close_step :=
  unfold steps_to, record in *; simpl in *; intuition eauto.

Lemma invoke_Ok {A} c (body : L A) k a k' :
  invoke c body k = (Ok a, k') ->
  (exists g, body (np_random k) = (Ok a, g) /\ np_random k' = g) /\
  steps_to k k' (Call c) (next_obj k) (arrays k).
Proof.
  unfold invoke. destruct (fault _ _); [discriminate|].
  destruct (body _) as [[a'|e] g] eqn:Hb; simpl; [|discriminate].
  intros [= <- <-]. close_step.
Qed.

Lemma invoke_ret_Ok {A} c (v : A) k a k' :
  invoke c (ret v) k = (Ok a, k') ->
  a = v /\ np_random k' = np_random k /\
  steps_to k k' (Call c) (next_obj k) (arrays k).
Proof.
  intros [(g & Hb & Hg) Hs]%invoke_Ok. apply ret_Ok in Hb as [-> ->]. close_step.
Qed.

Lemma shell_Ok cmd k a k' :
  shell cmd k = (Ok a, k') ->
  np_random k' = np_random k /\
  steps_to k k' (Call (shell_c cmd)) (next_obj k) (arrays k).
Proof. unfold shell. intros [= _ <-]. close_step. Qed.

Lemma read_var_Ok a k v k' :
  read_var a k = (Ok v, k') ->
  arrays k !! a = Some v /\ np_random k' = np_random k /\
  steps_to k k' (ReadVar a) (next_obj k) (arrays k).
Proof.
  unfold read_var. destruct (arrays k !! a); [|discriminate].
  intros [= <- <-]. close_step.
Qed.

Lemma assign_Ok a v k u k' :
  assign a v k = (Ok u, k') ->
  np_random k' = np_random k /\
  steps_to k k' (Assign a) (next_obj k) (<[a:=v]> (arrays k)).
Proof. unfold assign. intros [= _ <-]. close_step. Qed.

Lemma setitem_Ok a i v k u k' :
  setitem a i v k = (Ok u, k') ->
  exists arr, arrays k !! a = Some arr /\ i < length arr /\
  np_random k' = np_random k /\
  steps_to k k' (SetItem a i) (next_obj k) (<[a:=<[i:=v]> arr]> (arrays k)).
Proof.
  unfold setitem. destruct (arrays k !! a) as [arr|]; [|discriminate].
  destruct (decide _); [|discriminate].
  intros [= _ <-]. exists arr. close_step.
Qed.

Lemma new_obj_Ok k o k' :
  new_obj k = (Ok o, k') ->
  o = next_obj k /\ np_random k' = np_random k /\ log k' = log k /\
  next_obj k' = S (next_obj k) /\ arrays k' = arrays k.
Proof. unfold new_obj. intros [= <- <-]. simpl. auto. Qed.

Lemma py_SVC_Ok kern k svr k' :
  py_SVC kern k = (Ok svr, k') ->
  svr = mkRef (next_obj k) (mkSVC kern []) /\ np_random k' = np_random k /\
  steps_to k k' (Call (SVC_c (next_obj k) kern)) (S (next_obj k)) (arrays k).
Proof.
  unfold py_SVC. intros (o & k1 & (-> & Hg & Hl & Ho & Ha)%new_obj_Ok & Hi)%bind_Ok.
  apply invoke_ret_Ok in Hi as (-> & Hg' & Hs).
  unfold steps_to in *. rewrite <- Hl, <- Ho, <- Ha, <- Hg. intuition.
Qed.

Lemma py_LinearRegression_Ok k lr k' :
  py_LinearRegression k = (Ok lr, k') ->
  lr = next_obj k /\ np_random k' = np_random k /\
  steps_to k k' (Call (LinearRegression_c (next_obj k))) (S (next_obj k)) (arrays k).
Proof.
  unfold py_LinearRegression.
  intros (o & k1 & (-> & Hg & Hl & Ho & Ha)%new_obj_Ok & Hi)%bind_Ok.
  apply invoke_ret_Ok in Hi as (-> & Hg' & Hs).
  unfold steps_to in *. rewrite <- Hl, <- Ho, <- Ha, <- Hg. intuition.
Qed.

Lemma py_KFold_Ok n s r k cv k' :
  py_KFold n s r k = (Ok cv, k') ->
  cv = mkRef (next_obj k) (mkKFold n s r) /\ np_random k' = np_random k /\
  steps_to k k' (Call (KFold_c (next_obj k) n s r)) (S (next_obj k)) (arrays k).
Proof.
  unfold py_KFold. intros (o & k1 & (-> & Hg & Hl & Ho & Ha)%new_obj_Ok & Hi)%bind_Ok.
  apply invoke_Ok in Hi as ((g & Hb & Hg') & Hs).
  apply bind_Ok in Hb as (c & g1 & Hc & [-> ->]%ret_Ok).
  unfold lift, KFold_init in Hc. destruct (decide _); [discriminate|].
  injection Hc as <- <-.
  unfold steps_to in *. rewrite <- Hl, <- Ho, <- Ha, <- Hg. intuition.
Qed.

Lemma py_GridSearchCV_Ok est pg cv k clf k' :
  py_GridSearchCV est pg cv k = (Ok clf, k') ->
  clf = mkRef (next_obj k) (mkGridSearchCV (obj est) pg (obj cv)) /\
  np_random k' = np_random k /\
  steps_to k k' (Call (GridSearchCV_c (next_obj k) (oid est) (oid cv)))
    (S (next_obj k)) (arrays k).
Proof.
  unfold py_GridSearchCV.
  intros (o & k1 & (-> & Hg & Hl & Ho & Ha)%new_obj_Ok & Hi)%bind_Ok.
  apply invoke_ret_Ok in Hi as (-> & Hg' & Hs).
  unfold steps_to in *. rewrite <- Hl, <- Ho, <- Ha, <- Hg. intuition.
Qed.

(** One statement of a cell: split the sequence, then read what the first
    statement did off the lemma that fits it. *)
Ltac step_with H Hs :=
  first
    [ apply py_KFold_Ok in Hs as (? & ? & ? & ? & ?)
    | apply py_GridSearchCV_Ok in Hs as (? & ? & ? & ? & ?)
    | apply py_SVC_Ok in Hs as (? & ? & ? & ? & ?)
    | apply py_LinearRegression_Ok in Hs as (? & ? & ? & ? & ?)
    | apply read_var_Ok in Hs as (? & ? & ? & ? & ?)
    | apply assign_Ok in Hs as (? & ? & ? & ?)
    | apply setitem_Ok in Hs as (? & ? & ? & ? & ? & ? & ?)
    | apply shell_Ok in Hs as (? & ? & ? & ?)
    | apply invoke_ret_Ok in Hs as (? & ? & ? & ? & ?)
    | apply invoke_Ok in Hs as ((? & ? & ?) & ? & ? & ?) ].

Ltac step H :=
  let Hs := fresh "Hs" in
  apply bind_Ok in H as (? & ? & Hs & H); step_with H Hs; simplify_eq/=.

Ltac last_step H := step_with H H; simplify_eq/=.

(** Put the session reached in terms of the one the run started from. *)
Ltac chain :=
  repeat match goal with
         | E : log ?k = _ |- context [log ?k] => rewrite E
         | E : next_obj ?k = _ |- context [next_obj ?k] => rewrite E
         | E : arrays ?k = _ |- context [arrays ?k] => rewrite E
         | E : np_random ?k = _ |- context [np_random ?k] => rewrite E
         end.

(** The same for the hypotheses: the intermediate sessions disappear. *)
Ltac unchain :=
  repeat match goal with
         | E : log ?k = _ |- _ => is_var k; try rewrite E in *; clear E
         | E : next_obj ?k = _ |- _ => is_var k; try rewrite E in *; clear E
         | E : arrays ?k = _ |- _ => is_var k; try rewrite E in *; clear E
         | E : np_random ?k = np_random _ |- _ =>
             is_var k; try rewrite E in *; clear E
         end.

Lemma trial_Ok svr X y i k u k' :
  trial svr X y i k = (Ok u, k') ->
  exists fitted scores g1 g2 nn ns,
    GridSearchCV_fit (trial_clf (obj svr) i) X y (np_random k) = (Ok fitted, g1) /\
    cross_val_score (trial_clf (obj svr) i) X y (trial_cv i) g1 = (Ok scores, g2) /\
    np_random k' = g2 /\
    arrays k !! "non_nested_scores" = Some nn /\ i < length nn /\
    arrays k !! "nested_scores" = Some ns /\ i < length ns /\
    arrays k' =
      <["nested_scores" := <[i := nd_mean scores]> ns]>
        (<["nested_score" := scores]>
           (<["non_nested_scores" := <[i := best_score_ fitted]> nn]> (arrays k))) /\
    log k' = log k ++ quiet (trial_events (oid svr) (next_obj k) i) /\
    next_obj k' = next_obj k + 3.
Proof.
  unfold trial. intros Hrun.
  do 9 step Hrun. last_step Hrun.
  unchain. simplify_map_eq.
  eexists _, _, _, _, _, _. split_and!; eauto.
  - by rewrite <- !app_assoc.
  - lia.
Qed.

Lemma loop_Ok svr X y n : forall a k u k' nn ns,
  for_each (seq a n) (trial svr X y) k = (Ok u, k') ->
  arrays k !! "non_nested_scores" = Some nn ->
  arrays k !! "nested_scores" = Some ns ->
  exists nn' ns',
    arrays k' !! "non_nested_scores" = Some nn' /\
    arrays k' !! "nested_scores" = Some ns' /\
    length nn' = length nn /\ length ns' = length ns /\
    (forall j, j < a -> nn' !! j = nn !! j /\ ns' !! j = ns !! j) /\
    (forall j, a <= j < a + n -> trial_outcome (obj svr) X y j nn' ns') /\
    log k' = log k ++ quiet (trials_from (oid svr) (next_obj k) a n) /\
    next_obj k' = 3 * n + next_obj k.
Proof.
  induction n as [|n IH]; intros a k u k' nn ns Hrun Hnn Hns.
  - apply ret_Ok in Hrun as [_ ->]. exists nn, ns. simpl.
    split_and!; auto; [lia | by rewrite app_nil_r].
  - simpl in Hrun. apply bind_Ok in Hrun as (u1 & k1 & Htrial & Hrest).
    apply trial_Ok in Htrial
      as (fitted & scores & g1 & g2 & nn0 & ns0 & Hfit & Hcv & _ & Hnn0 & Hi
          & Hns0 & Hi' & Harr & Hlog & Hobj).
    simplify_eq.
    eapply IH in Hrest as (nn' & ns' & Hnn' & Hns' & Hlen & Hlen' & Hold & Hnew
                           & Hlog' & Hobj');
      [| rewrite Harr; by simplify_map_eq | rewrite Harr; by simplify_map_eq].
    rewrite !length_insert in *.
    exists nn', ns'. split_and!; auto.
    + intros j Hj. destruct (Hold j) as [-> ->]; [lia|].
      rewrite !list_lookup_insert_ne by lia. done.
    + intros j Hj. destruct (decide (j = a)) as [->|Hne]; [|apply Hnew; lia].
      destruct (Hold a) as [Ha Ha']; [lia|].
      rewrite list_lookup_insert_eq in Ha, Ha' by done.
      exists fitted, scores, (np_random k), g1, g2. done.
    + rewrite Hlog', Hlog, Hobj. simpl.
      rewrite <- app_assoc. simpl.
      replace (next_obj k + 3) with (S (S (S (next_obj k)))) by lia. done.
    + lia.
Qed.

(** A whole cell: every sequence is split and every statement stepped
    through; the loop is left for [loop_Ok]. *)
Ltac run H :=
  lazymatch type of H with
  | bind _ _ _ = _ =>
      let Hs := fresh "Hs" in
      apply bind_Ok in H as (? & ? & Hs & H); run Hs; run H
  | for_each _ _ _ = _ => idtac
  | ret _ _ = _ => apply ret_Ok in H as [? ?]; simplify_eq
  | _ => step_with H H; simplify_eq; cbn [fst snd obj oid] in *
  end.

#[local] Arguments trials_from : simpl never.
#[local] Arguments quiet : simpl never.
#[local] Arguments replicate : simpl never.

(** Lookups of variables bound a few statements earlier. *)
Ltac find_var :=
  repeat first
    [ rewrite lookup_insert_eq
    | rewrite lookup_insert_ne by done ].

Ltac find_vars :=
  repeat match goal with
         | E : context [<[_:=_]> _ !! _] |- _ =>
             first [ rewrite lookup_insert_eq in E
                   | rewrite lookup_insert_ne in E by done ]
         end;
  find_var; simplify_eq.

Lemma nested_notebook_Ok g u k :
  nested_notebook (fresh g) = (Ok u, k) ->
  log k = quiet nested_events /\
  exists nn ns,
    arrays k !! "non_nested_scores" = Some nn /\
    arrays k !! "nested_scores" = Some ns /\
    arrays k !! "score_difference" = Some (zip_with f_sub nn ns) /\
    length nn = NUM_TRIALS /\ length ns = NUM_TRIALS /\
    forall j, j < NUM_TRIALS ->
      trial_outcome (mkSVC "rbf" []) iris_data iris_target j nn ns.
Proof.
  intros Hrun.
  unfold nested_notebook, version_cell, imports_cell, calculations,
    plot_results, publish_cell, py_display_HTML, range in Hrun.
  run Hrun.
  match goal with
  | Hloop : for_each _ _ _ = _ |- _ =>
      eapply loop_Ok in Hloop
        as (nn & ns & Hnn & Hns & Hlen & Hlen' & _ & Hnew & Hlog & Hobj);
        [| by (chain; find_var) | by (chain; find_var)]
  end.
  rewrite length_replicate in Hlen, Hlen'.
  unchain. find_vars.
  match goal with
  | Hsub : lift (nd_subtract _ _) _ = _ |- _ =>
      unfold lift, nd_subtract in Hsub;
      rewrite decide_True in Hsub by congruence; simplify_eq
  end.
  find_vars.
  split; [reflexivity|].
  eexists _, _. split_and!; eauto.
  intros j Hj. apply Hnew. lia.
Qed.

Lemma cv_predict_page_Ok g u k :
  cv_predict_page (fresh g) = (Ok u, k) ->
  log k = quiet cv_predict_events /\
  exists predicted g',
    cross_val_predict boston_data boston_target 10 g = (Ok predicted, g') /\
    arrays k !! "y" = Some boston_target /\
    arrays k !! "predicted" = Some predicted.
Proof.
  intros Hrun.
  unfold cv_predict_page, cv_predict_imports, cv_predict_calculations,
    cv_predict_plot in Hrun.
  run Hrun. unchain. find_vars.
  split; [reflexivity|]. eauto.
Qed.

(** ** The library model *)

Lemma map_st_Ok {S A B} (f : A -> ST S B) xs : forall s ys s',
  map_st f xs s = (Ok ys, s') ->
  Forall2 (fun x y => exists s1 s2, f x s1 = (Ok y, s2)) xs ys.
Proof.
  induction xs as [|x xs IH]; intros s ys s' Hrun; simpl in Hrun.
  - apply ret_Ok in Hrun as [-> _]. constructor.
  - apply bind_Ok in Hrun as (b & s1 & Hb & Hrun).
    apply bind_Ok in Hrun as (bs & s2 & Hbs & [-> _]%ret_Ok).
    constructor; eauto.
Qed.

Lemma slices_length sizes : forall l, length (slices sizes l) = length sizes.
Proof. induction sizes; intros l; simpl; auto. Qed.

Lemma fold_sizes_length n k : length (fold_sizes n k) = k.
Proof. unfold fold_sizes. by rewrite length_map, length_seq. Qed.

Lemma indexable_Ok {A B} (X : list A) (y : list B) g data g' :
  indexable X y g = (Ok data, g') ->
  data = zip X y /\ length X = length y /\ length data = length y /\ g' = g.
Proof.
  unfold indexable. destruct (decide _) as [Hlen|]; [|discriminate].
  intros [-> ->]%ret_Ok. split_and!; auto.
  rewrite length_zip_with. lia.
Qed.

Lemma split_Ok cv n g masks g' :
  split cv n g = (Ok masks, g') ->
  length masks = n_splits cv /\ n_splits cv <= n /\
  Forall (fun m => length m = n) masks.
Proof.
  unfold split. destruct (decide _); [discriminate|].
  intros (order & g1 & _ & [-> _]%ret_Ok)%bind_Ok.
  split_and!; [|lia|].
  - by rewrite length_map, slices_length, fold_sizes_length.
  - apply Forall_forall. intros m (idx & -> & _)%list_elem_of_fmap.
    unfold test_mask. by rewrite length_map, length_seq.
Qed.

(** ** The logs of the two tutorials *)

Lemma events_quiet evs : events (quiet evs) = evs.
Proof.
  unfold events, quiet. rewrite <- list_fmap_compose.
  induction evs as [|ev evs IH]; [done|]. rewrite fmap_cons, IH. done.
Qed.

Lemma run_nested_events g :
  (run_nested g).1 = Ok tt -> events (log (run_nested g).2) = nested_events.
Proof.
  unfold run_nested. destruct (nested_notebook _) as [r k] eqn:Hrun.
  simpl. intros ->. apply nested_notebook_Ok in Hrun as [-> _].
  apply events_quiet.
Qed.

Lemma run_cv_predict_events g :
  (run_cv_predict g).1 = Ok tt ->
  events (log (run_cv_predict g).2) = cv_predict_events.
Proof.
  unfold run_cv_predict. destruct (cv_predict_page _) as [r k] eqn:Hrun.
  simpl. intros ->. apply cv_predict_page_Ok in Hrun as [-> _].
  apply events_quiet.
Qed.

(** A statement about each of the thirty trials, checked trial by trial. *)
Ltac each_trial i Hi :=
  unfold NUM_TRIALS in Hi;
  do 30 (destruct i as [|i]; [vm_compute; repeat split; reflexivity|]);
  lia.


(** ** Exceptions go through *)

Lemma clean_snoc l ev : clean l -> clean (l ++ [(ev, None)]).
Proof.
  intros Hl. apply Forall_app. split; [done|]. by repeat constructor.
Qed.

Lemma raised_snoc l ev e : clean l -> raised_last e (l ++ [(ev, Some e)]).
Proof. intros Hl. by exists l, ev. Qed.

Lemma clean_not_raised l e : clean l -> raised_last e l -> False.
Proof.
  intros Hl (pre & ev & -> & _).
  apply Forall_app in Hl as [_ Hl]. by inversion Hl.
Qed.

Lemma propagates_ret {A} (a : A) : propagates (ret a).
Proof. intros k Hk. done. Qed.

Lemma propagates_bind {A B} (m : M A) (f : A -> M B) :
  propagates m -> (forall a, propagates (f a)) -> propagates (bind m f).
Proof.
  intros Hm Hf k Hk. unfold bind. specialize (Hm k Hk).
  destruct (m k) as [[a|e] k1]; simpl in *; [by apply Hf | done].
Qed.

Lemma propagates_for_each {A} (xs : list A) (body : A -> M unit) :
  (forall x, propagates (body x)) -> propagates (for_each xs body).
Proof.
  intros Hbody. induction xs as [|x xs IH]; simpl.
  - apply propagates_ret.
  - apply propagates_bind; auto.
Qed.

Lemma propagates_invoke {A} c (body : L A) : propagates (invoke c body).
Proof.
  intros k Hk. unfold invoke.
  destruct (fault _ _) as [e|]; simpl; [by apply raised_snoc|].
  destruct (body _) as [[a|e] g]; simpl;
    [by apply clean_snoc | by apply raised_snoc].
Qed.

Lemma propagates_shell cmd : propagates (shell cmd).
Proof. intros k Hk. simpl. by apply clean_snoc. Qed.

Lemma propagates_new_obj : propagates new_obj.
Proof. intros k Hk. done. Qed.

Lemma propagates_read_var a : propagates (read_var a).
Proof.
  intros k Hk. unfold read_var.
  destruct (arrays k !! a); simpl; [by apply clean_snoc | by apply raised_snoc].
Qed.

Lemma propagates_assign a v : propagates (assign a v).
Proof. intros k Hk. simpl. by apply clean_snoc. Qed.

Lemma propagates_setitem a i v : propagates (setitem a i v).
Proof.
  intros k Hk. unfold setitem.
  destruct (arrays k !! a); simpl; [|by apply raised_snoc].
  destruct (decide _); simpl; [by apply clean_snoc | by apply raised_snoc].
Qed.

Create HintDb propagation discriminated.

#[local] Hint Resolve propagates_ret propagates_invoke propagates_shell
  propagates_new_obj propagates_read_var propagates_assign
  propagates_setitem : propagation.

(** A cell propagates when every statement of it does. *)
Ltac propagation :=
  repeat first
    [ solve [auto with propagation]
    | apply propagates_for_each; intros ?
    | apply propagates_bind; [|intros ?] ].

Lemma propagates_trial svr X y i : propagates (trial svr X y i).
Proof.
  unfold trial, py_KFold, py_GridSearchCV, py_fit, py_cross_val_score,
    py_reduce.
  propagation.
Qed.

#[local] Hint Resolve propagates_trial : propagation.

Lemma propagates_nested_notebook : propagates nested_notebook.
Proof.
  unfold nested_notebook, version_cell, imports_cell, calculations,
    plot_results, publish_cell, py_display_HTML, py_import, py_load_iris,
    py_SVC, py_np_zeros, py_subtract, py_reduce, py_print, py_make_subplots,
    py_Scatter, py_Bar, py_append_trace, py_update, py_iplot, py_publish.
  propagation.
Qed.

Lemma propagates_cv_predict_page : propagates cv_predict_page.
Proof.
  unfold cv_predict_page, cv_predict_imports, cv_predict_calculations,
    cv_predict_plot, py_import, py_LinearRegression, py_load_boston,
    py_cross_val_predict, py_Scatter, py_reduce, py_Layout, py_Figure,
    py_iplot.
  propagation.
Qed.


(** ** Seeded splitters and the global generator *)

Lemma generator_free_ret {A} (a : A) : generator_free (ret a).
Proof. by exists (Ok a). Qed.

Lemma generator_free_raise {A} e : generator_free (@raise _ A e).
Proof. by exists (Raise e). Qed.

Lemma generator_free_lift {A} (r : result A) : generator_free (lift r).
Proof. by exists r. Qed.

Lemma generator_free_bind_Ok {A B} (m : L A) (f : A -> L B) :
  generator_free m ->
  (forall a, (forall g, m g = (Ok a, g)) -> generator_free (f a)) ->
  generator_free (bind m f).
Proof.
  intros [[a|e] Hm] Hf.
  - destruct (Hf a Hm) as [r Hr]. exists r. intros g. unfold bind.
    by rewrite Hm, Hr.
  - exists (Raise e). intros g. unfold bind. by rewrite Hm.
Qed.

Lemma generator_free_bind {A B} (m : L A) (f : A -> L B) :
  generator_free m -> (forall a, generator_free (f a)) ->
  generator_free (bind m f).
Proof. intros Hm Hf. apply generator_free_bind_Ok; auto. Qed.

Lemma generator_free_map_st {A B} (f : A -> L B) xs :
  (forall x, generator_free (f x)) -> generator_free (map_st f xs).
Proof.
  intros Hf. induction xs as [|x xs IH]; simpl.
  - apply generator_free_ret.
  - apply generator_free_bind; [done|]. intros b.
    apply generator_free_bind; [done|]. intros bs. apply generator_free_ret.
Qed.

Lemma generator_free_indexable {A B} (X : list A) (y : list B) :
  generator_free (indexable X y).
Proof.
  unfold indexable. destruct (decide _);
    [apply generator_free_ret | apply generator_free_raise].
Qed.

Lemma generator_free_fold_order cv n :
  own_generator cv -> generator_free (fold_order cv n).
Proof.
  intros Hcv. unfold fold_order, own_generator in *.
  destruct (shuffle cv); [|by eexists].
  destruct (random_state cv) as [seed|]; [by eexists|].
  by destruct Hcv.
Qed.

Lemma generator_free_split cv n :
  own_generator cv -> generator_free (split cv n).
Proof.
  intros Hcv. unfold split. destruct (decide _).
  - apply generator_free_raise.
  - apply generator_free_bind; [by apply generator_free_fold_order|].
    intros order. apply generator_free_ret.
Qed.

Lemma generator_free_GridSearchCV_fit gs X y :
  own_generator (cv gs) -> generator_free (GridSearchCV_fit gs X y).
Proof.
  intros Hcv. unfold GridSearchCV_fit.
  apply generator_free_bind; [apply generator_free_indexable|]. intros data.
  apply generator_free_bind; [by apply generator_free_split|]. intros masks.
  destruct (argmax _) as [[i best]|]; [|apply generator_free_raise].
  destruct (_ !! i); [apply generator_free_ret | apply generator_free_raise].
Qed.

Lemma generator_free_cross_val_score gs X y outer :
  own_generator (cv gs) -> own_generator outer ->
  generator_free (cross_val_score gs X y outer).
Proof.
  intros Hin Hout. unfold cross_val_score.
  apply generator_free_bind; [apply generator_free_indexable|]. intros data.
  apply generator_free_bind; [by apply generator_free_split|]. intros masks.
  apply generator_free_map_st. intros m.
  apply generator_free_bind; [by apply generator_free_GridSearchCV_fit|].
  intros fitted. apply generator_free_ret.
Qed.

Lemma generator_free_take_at {A} (xs : list A) positions :
  generator_free (take_at xs positions).
Proof.
  apply generator_free_map_st. intros p.
  destruct (xs !! p); [apply generator_free_ret | apply generator_free_raise].
Qed.

Lemma generator_free_cross_val_predict X y cv :
  generator_free (cross_val_predict X y cv).
Proof.
  unfold cross_val_predict.
  apply generator_free_bind; [apply generator_free_indexable|]. intros data.
  apply generator_free_bind_Ok; [apply generator_free_lift|].
  intros folds Hfolds. specialize (Hfolds (seeded 0)).
  unfold lift, KFold_init in Hfolds. destruct (decide _); [done|].
  injection Hfolds as <-.
  apply generator_free_bind; [by apply generator_free_split|]. intros masks.
  simpl. destruct (check_is_partition _ _);
    [apply generator_free_take_at | apply generator_free_raise].
Qed.

Lemma seeded_ret {A} (a : A) : seeded_run (ret a).
Proof. intros k g. done. Qed.

Lemma seeded_bind_Ok {A B} (m : M A) (f : A -> M B) :
  seeded_run m ->
  (forall a, (exists k k', m k = (Ok a, k')) -> seeded_run (f a)) ->
  seeded_run (bind m f).
Proof.
  intros Hm Hf k g. unfold bind. rewrite Hm.
  destruct (m k) as [[a|e] k1] eqn:Hk; simpl; [|done].
  rewrite Hf by eauto. done.
Qed.

Lemma seeded_bind {A B} (m : M A) (f : A -> M B) :
  seeded_run m -> (forall a, seeded_run (f a)) -> seeded_run (bind m f).
Proof. intros Hm Hf. apply seeded_bind_Ok; auto. Qed.

Lemma seeded_for_each {A} (xs : list A) (body : A -> M unit) :
  (forall x, seeded_run (body x)) -> seeded_run (for_each xs body).
Proof.
  intros Hbody. induction xs as [|x xs IH]; simpl.
  - apply seeded_ret.
  - apply seeded_bind; auto.
Qed.

Lemma seeded_invoke {A} c (body : L A) :
  generator_free body -> seeded_run (invoke c body).
Proof.
  intros [r Hr] k g. unfold invoke. simpl.
  destruct (fault _ _); [done|]. by rewrite !Hr.
Qed.

Lemma seeded_shell cmd : seeded_run (shell cmd).
Proof. intros k g. done. Qed.

Lemma seeded_new_obj : seeded_run new_obj.
Proof. intros k g. done. Qed.

Lemma seeded_read_var a : seeded_run (read_var a).
Proof. intros k g. unfold read_var. simpl. by destruct (arrays k !! a). Qed.

Lemma seeded_assign a v : seeded_run (assign a v).
Proof. intros k g. done. Qed.

Lemma seeded_setitem a i v : seeded_run (setitem a i v).
Proof.
  intros k g. unfold setitem. simpl.
  destruct (arrays k !! a); [|done]. by destruct (decide _).
Qed.

Create HintDb seeding discriminated.

#[local] Hint Resolve generator_free_ret generator_free_raise
  generator_free_lift generator_free_cross_val_predict : seeding.
#[local] Hint Resolve seeded_ret seeded_shell seeded_new_obj seeded_read_var
  seeded_assign seeded_setitem : seeding.

Ltac generator_freedom :=
  repeat first
    [ solve [auto with seeding]
    | apply generator_free_bind; [|intros ?]
    | match goal with |- context [decide ?P] => destruct (decide P) end ].

Ltac seeding :=
  repeat first
    [ solve [auto with seeding]
    | apply seeded_invoke; solve [generator_freedom]
    | apply seeded_for_each; intros ?
    | apply seeded_bind; [|intros ?] ].

Lemma seeded_py_KFold n s r : seeded_run (py_KFold n s r).
Proof. unfold py_KFold. seeding. Qed.

Lemma seeded_py_GridSearchCV est pg cv : seeded_run (py_GridSearchCV est pg cv).
Proof. unfold py_GridSearchCV. seeding. Qed.

Lemma own_generator_trial_cv i : own_generator (trial_cv i).
Proof. intros _. done. Qed.

Lemma seeded_trial svr X y i : seeded_run (trial svr X y i).
Proof.
  unfold trial.
  apply seeded_bind_Ok; [apply seeded_py_KFold|].
  intros inner_cv (k1 & k1' & (-> & _)%py_KFold_Ok).
  apply seeded_bind_Ok; [apply seeded_py_KFold|].
  intros outer_cv (k2 & k2' & (-> & _)%py_KFold_Ok).
  apply seeded_bind_Ok; [apply seeded_py_GridSearchCV|].
  intros clf (k3 & k3' & (-> & _)%py_GridSearchCV_Ok).
  apply seeded_bind.
  { apply seeded_invoke, generator_free_GridSearchCV_fit, own_generator_trial_cv. }
  intros fitted. apply seeded_bind; [apply seeded_setitem|]. intros _.
  apply seeded_bind.
  { apply seeded_invoke, generator_free_cross_val_score;
      apply own_generator_trial_cv. }
  intros nested_score. unfold py_reduce. seeding.
Qed.

#[local] Hint Resolve seeded_trial : seeding.

Lemma seeded_nested_notebook : seeded_run nested_notebook.
Proof.
  unfold nested_notebook, version_cell, imports_cell, calculations,
    plot_results, publish_cell, py_display_HTML, py_import, py_load_iris,
    py_SVC, py_np_zeros, py_subtract, py_reduce, py_print, py_make_subplots,
    py_Scatter, py_Bar, py_append_trace, py_update, py_iplot, py_publish.
  seeding.
Qed.

Lemma seeded_cv_predict_page : seeded_run cv_predict_page.
Proof.
  unfold cv_predict_page, cv_predict_imports, cv_predict_calculations,
    cv_predict_plot, py_import, py_LinearRegression, py_load_boston,
    py_cross_val_predict, py_Scatter, py_reduce, py_Layout, py_Figure,
    py_iplot.
  seeding.
Qed.

Lemma run_nested_reseed g g' :
  run_nested g' = ((run_nested g).1, reseed g' (run_nested g).2).
Proof. unfold run_nested. by rewrite <- seeded_nested_notebook. Qed.


(** ** Scores *)

Lemma cross_val_score_length gs X y outer g scores g' :
  cross_val_score gs X y outer g = (Ok scores, g') ->
  length scores = n_splits outer.
Proof.
  unfold cross_val_score.
  intros (data & g1 & _ & Hrun)%bind_Ok.
  apply bind_Ok in Hrun as (masks & g2 & (Hlen & _)%split_Ok & Hrun).
  apply map_st_Ok, Forall2_length in Hrun. congruence.
Qed.


(** ** The grid search *)

Section Order.

(** The comparison of floats is a total preorder as long as no score is
    NaN. *)
Hypothesis f_leb_total : forall a b : Float, f_leb a b = true \/ f_leb b a = true.
Hypothesis f_leb_trans : forall a b c : Float,
  f_leb a b = true -> f_leb b c = true -> f_leb a c = true.



End Order.



(** ** Cross-validated predictions *)

Lemma take_at_length {A} (xs : list A) positions g ys g' :
  take_at xs positions g = (Ok ys, g') -> length ys = length positions.
Proof.
  intros Hrun. apply map_st_Ok, Forall2_length in Hrun. done.
Qed.


(** ** When the library calls return *)

Lemma select_split_length {A} (mask : list bool) : forall xs : list A,
  length mask = length xs ->
  length (train_rows mask xs) + length (test_rows mask xs) = length xs.
Proof.
  unfold train_rows, test_rows.
  induction mask as [|b mask IH]; intros [|x xs] Hlen; simpl in *; try done.
  specialize (IH xs ltac:(lia)). destruct b; simpl; lia.
Qed.

Lemma select_mask_length {A} (f : nat -> bool) n : forall a (xs : list A),
  length xs = n ->
  length (select (map f (seq a n)) xs)
    = length (filter (fun j => f j = true) (seq a n)).
Proof.
  induction n as [|n IH]; intros a [|x xs] Hlen; simpl in *; try done.
  rewrite filter_cons. destruct (f a); simpl; [f_equal|]; apply IH; lia.
Qed.

Lemma test_rows_length {A} n idx (xs : list A) :
  length xs = n -> length (test_rows (test_mask n idx) xs) <= length idx.
Proof.
  intros Hlen. unfold test_rows, test_mask.
  rewrite select_mask_length by done.
  apply submseteq_length, NoDup_submseteq.
  - apply NoDup_filter, NoDup_seq.
  - intros j [Hj%bool_decide_eq_true _]%list_elem_of_filter. done.
Qed.

Lemma fold_sizes_bound n k :
  Forall (fun s => s <= n / k + 1) (fold_sizes n k).
Proof.
  unfold fold_sizes. apply Forall_forall.
  intros s Hs. apply list_elem_of_In, in_map_iff in Hs as (j & <- & _).
  destruct (decide _); lia.
Qed.

Lemma slices_bound b sizes : forall l,
  Forall (fun s => s <= b) sizes ->
  Forall (fun idx => length idx <= b) (slices sizes l).
Proof.
  induction sizes as [|s sizes IH]; intros l Hsizes; simpl; [constructor|].
  apply Forall_cons in Hsizes as [Hs Hsizes]. constructor; [|by apply IH].
  rewrite length_take. lia.
Qed.

Lemma split_returns cv n :
  own_generator cv -> n_splits cv <= n ->
  exists masks,
    (forall g, split cv n g = (Ok masks, g)) /\
    length masks = n_splits cv /\
    Forall (fun m => forall A (xs : list A), length xs = n ->
              length xs - (n / n_splits cv + 1) <= length (train_rows m xs))
           masks.
Proof.
  intros Hcv Hn.
  destruct (generator_free_split cv n Hcv) as [r Hr].
  pose proof (Hr (seeded 0)) as Hrun. unfold split in Hrun.
  destruct (decide _); [lia|].
  destruct (fold_order cv n (seeded 0)) as [[order|e] g1] eqn:Horder.
  2:{ unfold fold_order in Horder. destruct (shuffle cv); [|done].
      destruct (random_state cv); [done|]. by destruct (rs_shuffle _ _). }
  unfold bind in Hrun. rewrite Horder in Hrun. unfold ret in Hrun.
  injection Hrun as <- _.
  eexists. split; [exact Hr|]. split.
  - by rewrite length_map, slices_length, fold_sizes_length.
  - apply Forall_forall. intros m Hm.
    apply list_elem_of_In, in_map_iff in Hm as (idx & <- & Hidx).
    intros A xs Hlen.
    assert (length idx <= n / n_splits cv + 1) as Hbound.
    { pose proof (slices_bound _ _ order (fold_sizes_bound n (n_splits cv))) as Hall.
      rewrite Forall_forall in Hall. apply Hall. by apply list_elem_of_In. }
    pose proof (test_rows_length n idx xs Hlen).
    pose proof (select_split_length (test_mask n idx) xs) as Hsum.
    unfold test_mask in Hsum at 1. rewrite length_map, length_seq in Hsum.
    specialize (Hsum ltac:(lia)). lia.
Qed.

Lemma argmax_from_index scores : forall best_i best i,
  best_i < i ->
  (argmax_from best_i best i scores).1 < i + length scores.
Proof.
  induction scores as [|s scores IH]; intros best_i best i Hi; simpl; [lia|].
  destruct (f_leb s best).
  - specialize (IH best_i best (S i) ltac:(lia)). lia.
  - specialize (IH i s (S i) ltac:(lia)). lia.
Qed.

Lemma argmax_returns scores :
  scores <> [] ->
  exists i best, argmax scores = Some (i, best) /\ i < length scores.
Proof.
  destruct scores as [|s scores]; [done|]. intros _. simpl.
  pose proof (argmax_from_index scores 0 s 1 ltac:(lia)) as Hi.
  destruct (argmax_from 0 s 1 scores) as [i best]. simpl in Hi.
  exists i, best. split; [done|lia].
Qed.

Lemma GridSearchCV_fit_returns gs X y :
  own_generator (cv gs) ->
  length X = length y ->
  n_splits (cv gs) <= length y ->
  ParameterGrid (param_grid gs) <> [] ->
  exists fitted, forall g, GridSearchCV_fit gs X y g = (Ok fitted, g).
Proof.
  intros Hcv Hlen Hn Hgrid.
  assert (length (zip X y) = length y) as Hzip
    by (rewrite length_zip_with; lia).
  destruct (split_returns (cv gs) (length (zip X y)) Hcv ltac:(lia))
    as (masks & Hsplit & _).
  set (means := map (validation_score (estimator gs) (zip X y) masks)
                    (ParameterGrid (param_grid gs))).
  destruct (argmax_returns means) as (i & best & Hbest & Hi).
  { unfold means. destruct (ParameterGrid _); done. }
  unfold means in Hi. rewrite length_map in Hi.
  destruct (lookup_lt_is_Some_2 _ _ Hi) as [params Hparams].
  eexists. intros g. unfold GridSearchCV_fit, indexable.
  rewrite decide_True by done. unfold bind at 1. unfold ret at 1.
  unfold bind. rewrite Hsplit. fold means. rewrite Hbest, Hparams. done.
Qed.

Lemma map_st_returns {S A B} (f : A -> ST S B) xs :
  Forall (fun x => exists b, forall s, f x s = (Ok b, s)) xs ->
  exists bs, forall s, map_st f xs s = (Ok bs, s).
Proof.
  induction 1 as [|x xs [b Hb] _ [bs Hbs]]; simpl.
  - by exists [].
  - exists (b :: bs). intros s. unfold bind. by rewrite Hb, Hbs.
Qed.

Lemma cross_val_score_returns gs X y outer :
  own_generator (cv gs) -> own_generator outer ->
  length X = length y ->
  n_splits outer <= length y ->
  n_splits (cv gs) <= length y - (length y / n_splits outer + 1) ->
  ParameterGrid (param_grid gs) <> [] ->
  exists scores, forall g, cross_val_score gs X y outer g = (Ok scores, g).
Proof.
  intros Hin Hout Hlen Hn Hinner Hgrid.
  assert (length (zip X y) = length y) as Hzip
    by (rewrite length_zip_with; lia).
  destruct (split_returns outer (length (zip X y)) Hout ltac:(lia))
    as (masks & Hsplit & _ & Htrain).
  rewrite Hzip in Htrain.
  edestruct (map_st_returns
               (fun m =>
                  fitted <- GridSearchCV_fit gs (train_rows m (zip X y)).*1
                              (train_rows m (zip X y)).*2 ;;
                  ret (model_score (best_estimator_ fitted)
                         (test_rows m (zip X y)))) masks) as [scores Hscores].
  { eapply Forall_impl; [exact Htrain|]. intros m Hm. simpl in Hm.
    specialize (Hm _ (zip X y) Hzip). rewrite Hzip in Hm.
    destruct (GridSearchCV_fit_returns gs (train_rows m (zip X y)).*1
                (train_rows m (zip X y)).*2) as [fitted Hfit]; auto.
    - by rewrite !length_fmap.
    - rewrite length_fmap. lia.
    - eexists. intros g. unfold bind. rewrite Hfit. done. }
  exists scores. intros g. unfold cross_val_score, indexable.
  rewrite decide_True by done. unfold bind at 1. unfold ret at 1.
  unfold bind at 1. rewrite Hsplit. apply Hscores.
Qed.

(** *** The folds of an unshuffled splitter *)

Lemma filter_all {A} (P : A -> Prop) `{forall x, Decision (P x)} (l : list A) :
  Forall P l -> filter P l = l.
Proof.
  induction 1 as [|x l Hx _ IH]; [done|]. rewrite filter_cons_True by done.
  by rewrite IH.
Qed.

Lemma filter_none {A} (P : A -> Prop) `{forall x, Decision (P x)} (l : list A) :
  Forall (fun x => ~ P x) l -> filter P l = [].
Proof.
  induction 1 as [|x l Hx _ IH]; [done|]. by rewrite filter_cons_False.
Qed.

Lemma select_map_filter (f : nat -> bool) (l : list nat) :
  select (map f l) l = filter (fun j => f j = true) l.
Proof.
  induction l as [|j l IH]; [done|]. simpl. rewrite filter_cons.
  destruct (f j); simpl; by rewrite IH.
Qed.

Lemma mask_indices_test_mask n idx :
  mask_indices (test_mask n idx)
    = filter (fun j => bool_decide (j ∈ idx) = true) (seq 0 n).
Proof.
  unfold mask_indices, test_mask. rewrite length_map, length_seq.
  apply select_map_filter.
Qed.

Lemma filter_seq_window a s n :
  a + s <= n ->
  filter (fun j => bool_decide (j ∈ seq a s) = true) (seq 0 n) = seq a s.
Proof.
  intros Hn. replace n with (a + (s + (n - a - s))) by lia.
  rewrite !seq_app, !filter_app. simpl.
  rewrite (filter_none _ (seq 0 a)), (filter_all _ (seq a s)),
    (filter_none _ (seq (a + s) _)).
  - by rewrite app_nil_r.
  - apply Forall_seq. intros j Hj. rewrite bool_decide_eq_true, elem_of_seq. lia.
  - apply Forall_seq. intros j Hj. rewrite bool_decide_eq_true, elem_of_seq. lia.
  - apply Forall_seq. intros j Hj. rewrite bool_decide_eq_true, elem_of_seq. lia.
Qed.

Lemma slices_seq_concat n sizes : forall a,
  a + sum_list sizes <= n ->
  concat (map mask_indices
            (map (test_mask n) (slices sizes (seq a (sum_list sizes)))))
    = seq a (sum_list sizes).
Proof.
  induction sizes as [|s sizes IH]; intros a Ha; [done|].
  simpl in *. rewrite take_seq, drop_seq, mask_indices_test_mask.
  replace (s `min` (s + sum_list sizes)) with s by lia.
  replace (s + sum_list sizes - s) with (sum_list sizes) by lia.
  rewrite filter_seq_window by lia. rewrite IH by lia.
  by rewrite seq_app.
Qed.

Lemma sum_fold_sizes_from q r k : forall a,
  sum_list (map (fun j => q + (if decide (j < r) then 1 else 0)) (seq a k))
    = k * q + (Nat.min (a + k) r - Nat.min a r).
Proof.
  induction k as [|k IH]; intros a; simpl.
  - lia.
  - rewrite IH. destruct (decide (a < r)); lia.
Qed.

Lemma sum_fold_sizes n k : 0 < k -> sum_list (fold_sizes n k) = n.
Proof.
  intros Hk. unfold fold_sizes. rewrite sum_fold_sizes_from.
  pose proof (Nat.div_mod_eq n k). pose proof (Nat.mod_upper_bound n k).
  lia.
Qed.

Lemma index_of_seq j n : forall a,
  a <= j < a + n -> index_of j (seq a n) = j - a.
Proof.
  induction n as [|n IH]; intros a Hj; simpl; [lia|].
  destruct (decide (a = j)) as [->|Hne]; [lia|].
  rewrite IH by lia. lia.
Qed.

Lemma select_same_length {A B} (mask : list bool) : forall (xs : list A) (ys : list B),
  length xs = length ys -> length (select mask xs) = length (select mask ys).
Proof.
  induction mask as [|b mask IH]; intros [|x xs] [|y ys] Hlen; simpl in *;
    try done.
  destruct b; simpl; auto.
Qed.

Lemma blocks_locs {A} (preds : list bool -> A) masks :
  (map (fun m => (preds m, mask_indices m)) masks).*2 = map mask_indices masks.
Proof.
  induction masks as [|m masks IH]; [done|]. simpl. by f_equal.
Qed.

Lemma blocks_preds_length {B} (preds : list bool -> list B) masks :
  Forall (fun m => length (preds m) = length (mask_indices m)) masks ->
  length (concat (map (fun m => (preds m, mask_indices m)) masks).*1)
    = length (concat (map mask_indices masks)).
Proof.
  induction 1 as [|m masks Hm _ IH]; [done|].
  cbn [map]. rewrite fmap_cons. cbn [fst concat].
  rewrite !length_app, IH. by f_equal.
Qed.

(** With targets for all the rows and a number of folds between two and
    the number of rows, [cross_val_predict] returns, whatever the state of
    the global generator, and its result has one entry per target. *)
Lemma cross_val_predict_returns X y cv :
  length X = length y -> 2 <= cv -> cv <= length y ->
  exists predicted,
    (forall g, cross_val_predict X y cv g = (Ok predicted, g)) /\
    length predicted = length y.
Proof.
  intros Hlen Hcv Hn.
  assert (length (zip X y) = length y) as Hzip
    by (rewrite length_zip_with; lia).
  set (n := length y) in *.
  set (masks := map (test_mask n) (slices (fold_sizes n cv) (seq 0 n))).
  assert (concat (map mask_indices masks) = seq 0 n) as Hlocs.
  { pose proof (slices_seq_concat n (fold_sizes n cv) 0) as Hconcat.
    rewrite sum_fold_sizes in Hconcat by lia. apply Hconcat. lia. }
  set (preds := fun m : list bool =>
                  map (lr_predict (lr_fit (train_rows m (zip X y))))
                      (test_rows m (zip X y)).*1).
  set (blocks := map (fun m => (preds m, mask_indices m)) masks).
  assert (blocks.*2 = map mask_indices masks) as Hsnd
    by apply blocks_locs.
  assert (length (concat blocks.*1) = n) as Hpreds.
  { unfold blocks. rewrite blocks_preds_length.
    - by rewrite Hlocs, length_seq.
    - apply Forall_forall. intros m Hm.
      apply list_elem_of_In, in_map_iff in Hm as (idx & <- & _).
      unfold preds. rewrite length_map, length_fmap.
      unfold test_rows, mask_indices. apply select_same_length.
      unfold test_mask. rewrite length_seq, length_map, length_seq. lia. }
  destruct (map_st_returns
              (fun p => match concat blocks.*1 !! p with
                        | Some x => ret x
                        | None => raise (IndexError "index out of bounds")
                        end) (seq 0 n) (S:=RandomState)) as [predicted Hpredicted].
  { apply Forall_seq. intros p Hp.
    destruct (lookup_lt_is_Some_2 (concat blocks.*1) p ltac:(lia)) as [x ->].
    by exists x. }
  exists predicted. split.
  2:{ specialize (Hpredicted (seeded 0)).
      apply map_st_Ok, Forall2_length in Hpredicted.
      rewrite length_seq in Hpredicted. done. }
  intros g. unfold cross_val_predict, indexable.
  rewrite decide_True by done. unfold bind at 1. unfold ret at 1.
  unfold bind at 1. unfold lift, KFold_init. rewrite decide_False by lia.
  unfold bind at 1. unfold split. cbn [n_splits shuffle random_state].
  rewrite Hzip. fold n. rewrite decide_False by lia.
  unfold bind at 1. unfold fold_order. cbn [shuffle]. unfold ret at 1.
  fold masks. subst blocks preds. cbv beta in *. rewrite Hsnd, Hlocs.
  replace (check_is_partition (seq 0 n) n) with true.
  2:{ symmetry. unfold check_is_partition. apply andb_true_intro. split.
      - apply bool_decide_eq_true. apply length_seq.
      - apply forallb_forall. intros j Hj. by apply bool_decide_eq_true, list_elem_of_In. }
  rewrite length_seq.
  replace (map (fun j => index_of j (seq 0 n)) (seq 0 n)) with (seq 0 n).
  2:{ symmetry. rewrite <- (map_id (seq 0 n)) at 2. apply map_ext_in.
      intros j Hj%in_seq. rewrite index_of_seq by lia. lia. }
  apply Hpredicted.
Qed.

(** ** When the notebooks return *)

Section Returns.

Hypothesis Hfault : no_faults.

Lemma returns_bind {A B} P Q R (m : M A) (f : A -> M B) :
  returns P m Q ->
  (forall a, (exists k k', P (arrays k) /\ m k = (Ok a, k')) -> returns Q (f a) R) ->
  returns P (bind m f) R.
Proof.
  intros Hm Hf k HP. destruct (Hm k HP) as (a & k1 & Hrun & HQ).
  destruct (Hf a ltac:(eauto) k1 HQ) as (b & k2 & Hrun' & HR).
  exists b, k2. unfold bind. rewrite Hrun. done.
Qed.

Lemma returns_weaken {A} (P P' Q Q' : gmap string (list Float) -> Prop) (m : M A) :
  returns P' m Q' -> (forall arrs, P arrs -> P' arrs) ->
  (forall arrs, Q' arrs -> Q arrs) -> returns P m Q.
Proof.
  intros Hm HP HQ k Hk. destruct (Hm k (HP _ Hk)) as (a & k' & Hrun & Hk').
  eauto.
Qed.

Lemma returns_ret {A} P (a : A) : returns P (ret a) P.
Proof. intros k HP. by exists a, k. Qed.

Lemma returns_invoke {A} P c (body : L A) :
  (exists a, forall g, body g = (Ok a, g)) -> returns P (invoke c body) P.
Proof.
  intros [a Hbody] k HP. unfold invoke. rewrite Hfault, Hbody. simpl. eauto.
Qed.

Lemma returns_shell P cmd : returns P (shell cmd) P.
Proof. intros k HP. unfold shell. simpl. eauto. Qed.

Lemma returns_new_obj P : returns P new_obj P.
Proof. intros k HP. unfold new_obj. simpl. eauto. Qed.

Lemma returns_read_var (P : gmap string (list Float) -> Prop) a :
  (forall arrs, P arrs -> is_Some (arrs !! a)) -> returns P (read_var a) P.
Proof.
  intros Hbound k HP. unfold read_var.
  destruct (Hbound _ HP) as [v ->]. simpl. eauto.
Qed.

Lemma returns_assign (P Q : gmap string (list Float) -> Prop) a v :
  (forall arrs, P arrs -> Q (<[a:=v]> arrs)) -> returns P (assign a v) Q.
Proof.
  intros HQ k HP. unfold assign. simpl. eexists _, _. split; [done|].
  simpl. auto.
Qed.

Lemma returns_setitem (P Q : gmap string (list Float) -> Prop) a i v :
  (forall arrs, P arrs ->
     exists arr, arrs !! a = Some arr /\ i < length arr /\
                 Q (<[a:=<[i:=v]> arr]> arrs)) ->
  returns P (setitem a i v) Q.
Proof.
  intros HQ k HP. unfold setitem.
  destruct (HQ _ HP) as (arr & -> & Hi & HQ').
  rewrite decide_True by done. eexists _, _. split; [done|]. simpl. auto.
Qed.

Lemma returns_for_each {A} P (xs : list A) (body : A -> M unit) :
  Forall (fun x => returns P (body x) P) xs ->
  returns P (for_each xs body) P.
Proof.
  induction 1 as [|x xs Hx _ IH]; simpl.
  - apply returns_ret.
  - eapply returns_bind; [exact Hx|]. intros _ _. exact IH.
Qed.

(** A call whose body is a plain value. *)
Lemma returns_invoke_ret {A} P c (a : A) : returns P (invoke c (ret a)) P.
Proof. apply returns_invoke. by exists a. Qed.

Lemma returns_py_KFold P n s r : 1 < n -> returns P (py_KFold n s r) P.
Proof.
  intros Hn. unfold py_KFold.
  eapply returns_bind; [apply returns_new_obj|]. intros self _.
  apply returns_invoke. eexists. intros g.
  unfold bind, lift, KFold_init. rewrite decide_False by lia. done.
Qed.

Lemma returns_py_SVC P kern : returns P (py_SVC kern) P.
Proof.
  unfold py_SVC.
  eapply returns_bind; [apply returns_new_obj|]. intros self _.
  apply returns_invoke_ret.
Qed.

Lemma returns_py_GridSearchCV P est pg cv :
  returns P (py_GridSearchCV est pg cv) P.
Proof.
  unfold py_GridSearchCV.
  eapply returns_bind; [apply returns_new_obj|]. intros self _.
  apply returns_invoke_ret.
Qed.

Lemma scores_bound_setitem arrs a i v arr :
  scores_bound arrs -> arrs !! a = Some arr ->
  scores_bound (<[a:=<[i:=v]> arr]> arrs).
Proof.
  intros (nn & ns & Hnn & Hlen & Hns & Hlen') Ha. unfold scores_bound.
  destruct (decide (a = "non_nested_scores")) as [->|Hne];
    [|destruct (decide (a = "nested_scores")) as [->|Hne']].
  - exists (<[i:=v]> nn), ns. simplify_map_eq.
    by rewrite length_insert.
  - exists nn, (<[i:=v]> ns). simplify_map_eq.
    by rewrite length_insert.
  - exists nn, ns. by simplify_map_eq.
Qed.

Lemma returns_trial svr X y i :
  length X = length y -> 6 <= length y -> i < NUM_TRIALS ->
  returns scores_bound (trial svr X y i) scores_bound.
Proof.
  intros Hlen Hn Hi. unfold trial.
  eapply returns_bind; [by apply returns_py_KFold; lia|].
  intros inner_cv (k1 & k1' & _ & (-> & _)%py_KFold_Ok).
  eapply returns_bind; [by apply returns_py_KFold; lia|].
  intros outer_cv (k2 & k2' & _ & (-> & _)%py_KFold_Ok).
  eapply returns_bind; [apply returns_py_GridSearchCV|].
  intros clf (k3 & k3' & _ & (-> & _)%py_GridSearchCV_Ok).
  eapply returns_bind.
  { apply returns_invoke.
    apply GridSearchCV_fit_returns; cbn [obj cv n_splits param_grid];
      [apply own_generator_trial_cv | done | lia | done]. }
  intros fitted _.
  eapply returns_bind.
  { apply returns_setitem. intros arrs Harrs.
    pose proof Harrs as (nn & ns & Hnn & Hlen' & _).
    exists nn. split_and!; [done | lia |].
    by apply scores_bound_setitem. }
  intros _ _.
  eapply returns_bind.
  { apply returns_invoke.
    apply cross_val_score_returns; cbn [obj cv n_splits param_grid];
      [apply own_generator_trial_cv | apply own_generator_trial_cv
      | done | lia | | done].
    pose proof (Nat.div_mod_eq (length y) 4).
    pose proof (Nat.mod_upper_bound (length y) 4).
    lia. }
  intros nested_score _.
  eapply returns_bind.
  { apply (returns_assign scores_bound
             (fun arrs => scores_bound arrs /\ is_Some (arrs !! "nested_score"))).
    intros arrs (nn & ns & Hnn & Hlen' & Hns & Hlen'').
    split; [exists nn, ns|]; by simplify_map_eq. }
  intros _ _.
  eapply returns_bind.
  { apply returns_read_var. by intros arrs [_ Hsome]. }
  intros nested_score' _.
  eapply returns_bind; [apply returns_invoke_ret|].
  intros mean _.
  apply returns_setitem. intros arrs [Harrs _].
  pose proof Harrs as (nn & ns & _ & _ & Hns & Hlen').
  exists ns. split_and!; [done | lia |].
  by apply scores_bound_setitem.
Qed.

(** A statement that is a call returning a plain value, or the creation of
    an object: the variables stay as they are. *)
Ltac plain_step :=
  eapply returns_bind;
    [ solve [ apply returns_invoke_ret | apply returns_new_obj
            | apply returns_shell | apply returns_ret ]
    | let Hrun := fresh "Hrun" in
      intros ? (? & ? & _ & Hrun);
      first [ apply invoke_ret_Ok in Hrun as (-> & _) | clear Hrun ] ].

Ltac plain_steps :=
  repeat plain_step;
  try solve [ apply returns_invoke_ret | apply returns_new_obj
            | apply returns_shell | apply returns_ret ].

Lemma returns_version_cell P : returns P version_cell P.
Proof. unfold version_cell, py_import. plain_steps. Qed.

Lemma returns_imports_cell P : returns P imports_cell P.
Proof. unfold imports_cell, py_import. plain_steps. Qed.

Lemma returns_publish_cell P : returns P publish_cell P.
Proof.
  unfold publish_cell, py_display_HTML, py_import, py_publish.
  eapply returns_bind; [apply returns_invoke_ret|]. intros _ _.
  eapply returns_bind.
  { eapply returns_bind; [apply returns_invoke_ret|]. intros _ _.
    apply returns_invoke_ret. }
  intros _ _.
  eapply returns_bind.
  { eapply returns_bind; [apply returns_invoke_ret|]. intros _ _.
    apply returns_invoke_ret. }
  intros _ _. plain_steps.
Qed.

Lemma returns_loop svr X y :
  length X = length y -> 6 <= length y ->
  returns scores_bound (for_each (range NUM_TRIALS) (trial svr X y)) scores_bound.
Proof.
  intros Hlen Hn. apply returns_for_each, Forall_forall.
  intros i Hi%elem_of_seq. apply returns_trial; [done | done | lia].
Qed.

Lemma returns_read_scores (P : gmap string (list Float) -> Prop) a :
  (forall arrs, P arrs -> scores_ready arrs) ->
  a ∈ ["non_nested_scores"; "nested_scores"; "score_difference"] ->
  returns P (read_var a) P.
Proof.
  intros HP Ha. apply returns_read_var. intros arrs Harrs.
  destruct (HP _ Harrs) as [(nn & ns & Hnn & _ & Hns & _) Hsd].
  rewrite !elem_of_cons, elem_of_nil in Ha.
  destruct Ha as [->|[->|[->|[]]]]; eauto.
Qed.

Lemma returns_calculations :
  length iris_data = length iris_target -> 6 <= length iris_target ->
  returns (fun _ => True) calculations scores_ready.
Proof.
  intros Hlen Hn.
  unfold calculations, py_load_iris, py_np_zeros, py_subtract,
    py_reduce, py_print.
  plain_step.
  eapply returns_bind; [apply returns_py_SVC|]. intros svr _.
  plain_step.
  eapply returns_bind.
  { apply (returns_assign _ (fun arrs =>
             exists nn, arrs !! "non_nested_scores" = Some nn
                        /\ length nn = NUM_TRIALS)).
    intros arrs _. eexists. rewrite lookup_insert_eq. split; [done|].
    apply length_replicate. }
  intros _ _. plain_step.
  eapply returns_bind.
  { apply (returns_assign _ scores_bound).
    intros arrs (nn & Hnn & Hlen'). exists nn, (replicate NUM_TRIALS f_zero).
    rewrite lookup_insert_ne, lookup_insert_eq by done.
    split_and!; auto using length_replicate. }
  intros _ _.
  eapply returns_bind; [by apply returns_loop|]. intros _ _.
  eapply returns_bind.
  { apply returns_read_var. by intros arrs (nn & ns & -> & _). }
  intros nn (k1 & k1' & (nn' & ns' & Hnn & Hlen1 & _) & (Hnn' & _)%read_var_Ok).
  eapply returns_bind.
  { apply returns_read_var. by intros arrs (? & ns & _ & _ & -> & _). }
  intros ns (k2 & k2' & (nn'' & ns'' & _ & _ & Hns & Hlen2) & (Hns' & _)%read_var_Ok).
  simplify_eq.
  eapply returns_bind.
  { apply returns_invoke. eexists. intros g. unfold lift, nd_subtract.
    rewrite decide_True by congruence. done. }
  intros difference _.
  eapply returns_bind.
  { apply (returns_assign _ scores_ready).
    intros arrs (nn1 & ns1 & Hnn1 & ? & Hns1 & ?). split.
    - exists nn1, ns1. rewrite !lookup_insert_ne by done. done.
    - rewrite lookup_insert_eq. done. }
  intros _ _.
  eapply returns_bind; [apply returns_read_scores; [done|set_solver]|].
  intros ? _. plain_step.
  eapply returns_bind; [apply returns_read_scores; [done|set_solver]|].
  intros ? _. plain_steps.
Qed.

Lemma py_append_trace_Ok fig t row col k fig' k' :
  py_append_trace fig t row col k = (Ok fig', k') ->
  grid_rows fig' = grid_rows fig /\ grid_cols fig' = grid_cols fig.
Proof.
  unfold py_append_trace. intros [(g & Hbody & _) _]%invoke_Ok.
  destruct (decide _); [|done]. apply ret_Ok in Hbody as [-> _]. done.
Qed.

Lemma returns_py_append_trace P fig t row col :
  1 <= row <= grid_rows fig -> 1 <= col <= grid_cols fig ->
  returns P (py_append_trace fig t row col) P.
Proof.
  intros Hrow Hcol. unfold py_append_trace. apply returns_invoke.
  rewrite decide_True by done. eexists. done.
Qed.

Lemma returns_plot_results : returns scores_ready plot_results scores_ready.
Proof.
  unfold plot_results, py_make_subplots, py_Scatter, py_Bar, py_update.
  eapply returns_bind; [apply returns_invoke_ret|].
  intros fig (k0 & k0' & _ & (-> & _)%invoke_ret_Ok).
  eapply returns_bind; [apply returns_read_scores; [done|set_solver]|].
  intros ? _. plain_step.
  eapply returns_bind; [apply returns_py_append_trace; simpl; lia|].
  intros fig1 (k1 & k1' & _ & [Hrows1 Hcols1]%py_append_trace_Ok).
  simpl in Hrows1, Hcols1.
  eapply returns_bind; [apply returns_read_scores; [done|set_solver]|].
  intros ? _. plain_step.
  eapply returns_bind; [apply returns_py_append_trace; lia|].
  intros fig2 (k2 & k2' & _ & [Hrows2 Hcols2]%py_append_trace_Ok).
  do 2 plain_step.
  eapply returns_bind; [apply returns_read_scores; [done|set_solver]|].
  intros ? _. plain_step.
  eapply returns_bind; [apply returns_py_append_trace; lia|].
  intros fig3 _. plain_steps.
Qed.

Lemma returns_nested_notebook :
  length iris_data = length iris_target -> 6 <= length iris_target ->
  returns (fun _ => True) nested_notebook scores_ready.
Proof.
  intros Hlen Hn. unfold nested_notebook.
  eapply returns_bind; [apply returns_version_cell|]. intros _ _.
  eapply returns_bind; [apply returns_imports_cell|]. intros _ _.
  eapply returns_bind; [by apply returns_calculations|]. intros _ _.
  eapply returns_bind; [apply returns_plot_results|]. intros fig _.
  eapply returns_bind; [apply returns_invoke_ret|]. intros _ _.
  apply returns_publish_cell.
Qed.

(** With no fault, targets for all the rows and at least six rows, so that
    the three quarters left by an outer fold can still be cut in four, the
    notebook returns. *)
Lemma run_nested_returns g :
  length iris_data = length iris_target -> 6 <= length iris_target ->
  (run_nested g).1 = Ok tt.
Proof.
  intros Hlen Hn.
  destruct (returns_nested_notebook Hlen Hn (fresh g) I) as ([] & k & Hrun & _).
  unfold run_nested. by rewrite Hrun.
Qed.

Lemma returns_cv_predict_page :
  length boston_data = length boston_target -> 10 <= length boston_target ->
  returns (fun _ => True) cv_predict_page (fun _ => True).
Proof.
  intros Hlen Hn.
  set (ready := fun arrs : gmap string (list Float) =>
                  is_Some (arrs !! "y") /\ is_Some (arrs !! "predicted")).
  unfold cv_predict_page.
  eapply returns_bind.
  { unfold cv_predict_imports, py_import. plain_steps. }
  intros _ _.
  eapply (returns_bind _ ready).
  { unfold cv_predict_calculations, py_LinearRegression, py_load_boston,
      py_cross_val_predict.
    eapply returns_bind.
    { eapply returns_bind; [apply returns_new_obj|]. intros self _.
      apply returns_invoke_ret. }
    intros lr _. plain_step.
    eapply returns_bind.
    { apply (returns_assign _ (fun arrs => arrs !! "y" = Some boston_target)).
      intros arrs _. apply lookup_insert_eq. }
    intros _ _.
    eapply returns_bind; [apply returns_read_var; by intros arrs ->|].
    intros y (k & k' & Hk & (Hk' & _)%read_var_Ok). simplify_eq.
    clear k k' Hk.
    eapply returns_bind.
    { apply returns_invoke.
      destruct (cross_val_predict_returns boston_data boston_target 10)
        as (predicted & Hrun & _); [done | lia | done | eauto]. }
    intros predicted _.
    apply returns_assign. intros arrs Harrs. unfold ready.
    rewrite lookup_insert_eq, lookup_insert_ne, Harrs by done. done. }
  intros _ _.
  unfold cv_predict_plot, py_Scatter, py_reduce, py_Layout, py_Figure, py_iplot.
  assert (forall a, a ∈ ["y"; "predicted"] ->
            returns ready (read_var a) ready) as Hread.
  { intros a Ha. apply returns_read_var. intros arrs [Hy Hp].
    rewrite !elem_of_cons, elem_of_nil in Ha. by destruct Ha as [->|[->|[]]]. }
  eapply returns_bind; [apply Hread; set_solver|]. intros ? _.
  eapply returns_bind; [apply Hread; set_solver|]. intros ? _.
  plain_step.
  do 4 (eapply returns_bind; [apply Hread; set_solver|]; intros ? _;
        plain_step).
  plain_step. plain_step. plain_step.
  eapply returns_weaken; [apply returns_invoke_ret | done | done].
Qed.

(** With no fault, targets for all the rows and at least ten rows, one for
    each of the ten folds, the page returns. *)
Lemma run_cv_predict_returns g :
  length boston_data = length boston_target -> 10 <= length boston_target ->
  (run_cv_predict g).1 = Ok tt.
Proof.
  intros Hlen Hn.
  destruct (returns_cv_predict_page Hlen Hn (fresh g) I) as ([] & k & Hrun & _).
  unfold run_cv_predict. by rewrite Hrun.
Qed.

End Returns.

(** ** What the two loops of a nested score are made of *)


Lemma cross_val_predict_accepts X y cv g predicted g' :
  cross_val_predict X y cv g = (Ok predicted, g') ->
  length X = length y /\ 2 <= cv <= length y.
Proof.
  unfold cross_val_predict.
  intros (data & g1 & (-> & Hlen & Hzip & _)%indexable_Ok & Hrun)%bind_Ok.
  apply bind_Ok in Hrun as (folds & g2 & Hfolds & Hrun).
  apply bind_Ok in Hrun as (masks & g3 & (_ & Hn & _)%split_Ok & _).
  unfold lift, KFold_init in Hfolds. destruct (decide _); [done|].
  injection Hfolds as <- _. simpl in Hn. lia.
Qed.

Lemma cross_val_predict_length X y cv g predicted g' :
  cross_val_predict X y cv g = (Ok predicted, g') ->
  length predicted = length y.
Proof.
  unfold cross_val_predict.
  intros (data & g1 & (-> & _ & Hlen & _)%indexable_Ok & Hrun)%bind_Ok.
  apply bind_Ok in Hrun as (folds & g2 & _ & Hrun).
  apply bind_Ok in Hrun as (masks & g3 & _ & Hrun).
  simpl in Hrun.
  destruct (check_is_partition _ _) eqn:Hcheck; [|done].
  apply take_at_length in Hrun. rewrite Hrun, length_map, length_seq.
  unfold check_is_partition in Hcheck.
  apply andb_prop in Hcheck as [Hn%bool_decide_eq_true _]. congruence.
Qed.

(** ** Properties of the two tutorials *)

(** C1: the calculation of the notebook is a loop of exactly 30 trials
    ([NUM_TRIALS = 30]); the log of a run is what precedes the loop, then
    for every trial in turn the events of that trial, then what follows the
    loop.  A trial builds two splitters and a [GridSearchCV], fits it, and
    gives that same searcher and the second splitter to [cross_val_score];
    no call that builds or runs a cross-validation is made outside the
    trials. *)
Theorem C1_thirty_trials g :
  (run_nested g).1 = Ok tt ->
  NUM_TRIALS = 30 /\
  events (log (run_nested g).2) =
    opening_events
    ++ flat_map (fun i => trial_events 0 (1 + 3 * i) i) (range NUM_TRIALS)
    ++ closing_events /\
  (forall svr o i,
     filter (fun c => is_cv_call c = true) (omap call_of (trial_events svr o i)) =
       [ KFold_c o 4 true (Some (Z.of_nat i));
         KFold_c (S o) 4 true (Some (Z.of_nat i));
         GridSearchCV_c (S (S o)) svr o;
         fit_c (S (S o));
         cross_val_score_c (S (S o)) (S o) ]) /\
  filter (fun c => is_cv_call c = true)
    (omap call_of (opening_events ++ closing_events)) = [].
Proof.
  intros Hrun. split_and!; [done | by apply run_nested_events | done | done].
Qed.

(** C2: [cross_val_predict] accepts its input, that is returns, exactly when
    there is a target for every row and the number of folds is between two
    and the number of rows; the array of predictions it then returns has as
    many entries as the target array [y]. *)
Theorem C2_predictions_length X y cv g :
  ((exists predicted g', cross_val_predict X y cv g = (Ok predicted, g'))
   <-> length X = length y /\ 2 <= cv <= length y) /\
  (forall predicted g',
     cross_val_predict X y cv g = (Ok predicted, g') ->
     length predicted = length y).
Proof.
  split; [split|].
  - intros (predicted & g' & Hrun). by eapply cross_val_predict_accepts.
  - intros (Hlen & Hcv & Hn).
    destruct (cross_val_predict_returns X y cv Hlen Hcv Hn) as (predicted & Hrun & _).
    eauto.
  - intros predicted g' Hrun. by eapply cross_val_predict_length.
Qed.



(** C5 (amended): a run of either tutorial is one sequence of calls in this
    order: the dataset is loaded, then the models are fitted and evaluated
    (in the notebook by the loop of the trials, a fit and a
    [cross_val_score] per trial and nothing else; in the page by the one
    call of [cross_val_predict]), then the chart is built and rendered.
    The page ends there; the notebook goes on to its publishing cell. *)
Theorem C5_stages_in_order g g' :
  (run_nested g).1 = Ok tt ->
  (run_cv_predict g').1 = Ok tt ->
  stages (log (run_nested g).2) =
    [LoadData] ++ replicate (2 * NUM_TRIALS) FitEvaluate
    ++ replicate 12 RenderChart ++ replicate 6 PublishPage /\
  filter (fun c => stage_of c = Some FitEvaluate) (calls (log (run_nested g).2)) =
    flat_map (fun i => [fit_c (3 + 3 * i); cross_val_score_c (3 + 3 * i) (2 + 3 * i)])
      (range NUM_TRIALS) /\
  stages (log (run_cv_predict g').2) =
    [LoadData] ++ replicate 1 FitEvaluate ++ replicate 5 RenderChart /\
  load_fit_render (stages (log (run_cv_predict g').2)).
Proof.
  intros Hrun Hrun'. unfold stages, calls.
  rewrite (run_nested_events g Hrun), (run_cv_predict_events g' Hrun').
  split_and!; [done | done | done |].
  exists 1, 5. done.
Qed.

(** C6 (amended): each tutorial calls the plotting service once, with
    [py.iplot].  Besides that call the page only reads its dataset.  The
    notebook reads its dataset, prints one line and, in its last cell,
    displays two HTML snippets, installs a package from a git URL with
    [pip] (a second use of the network) and calls [publisher.publish]. *)
Theorem C6_input_output g g' :
  (run_nested g).1 = Ok tt ->
  (run_cv_predict g').1 = Ok tt ->
  io_calls (log (run_nested g).2) =
    [ (load_iris_c, Disk);
      (print_c, Console);
      (iplot_c, Network);
      (display_c, Console);
      (display_c, Console);
      (shell_c "pip install git+https://github.com/plotly/publisher.git --upgrade",
       Network);
      (publish_c, Disk) ] /\
  io_calls (log (run_cv_predict g').2) =
    [ (load_boston_c, Disk); (iplot_c, Network) ] /\
  length (filter (fun c => c = iplot_c) (calls (log (run_nested g).2))) = 1 /\
  length (filter (fun c => c = iplot_c) (calls (log (run_cv_predict g').2))) = 1.
Proof.
  intros Hrun Hrun'. unfold io_calls, calls.
  rewrite (run_nested_events g Hrun), (run_cv_predict_events g' Hrun').
  done.
Qed.

(** C7 (amended): every entry of [non_nested_scores] and of
    [nested_scores] is assigned exactly once, the entry [i] in the trial
    [i]; the arrays are read only after the loop, each of the two twice (for
    the difference and for its line in the chart), and [score_difference]
    three times (mean, standard deviation, bar chart). *)
Theorem C7_writes_and_reads g :
  (run_nested g).1 = Ok tt ->
  let evs := events (log (run_nested g).2) in
  (forall a i, a ∈ ["non_nested_scores"; "nested_scores"] -> i < NUM_TRIALS ->
     writes_of a i evs = 1 /\
     writes_of a i (trial_events 0 (1 + 3 * i) i) = 1) /\
  evs = opening_events ++ trials_events ++ closing_events /\
  (forall a, a ∈ ["non_nested_scores"; "nested_scores"; "score_difference"] ->
     reads_of a (opening_events ++ trials_events) = 0) /\
  reads_of "non_nested_scores" evs = 2 /\
  reads_of "nested_scores" evs = 2 /\
  reads_of "score_difference" evs = 3.
Proof.
  intros Hrun evs. unfold evs. rewrite (run_nested_events g Hrun). clear.
  split_and!; try done.
  - intros a i Ha Hi. rewrite !elem_of_cons, elem_of_nil in Ha.
    destruct Ha as [->|[->|[]]]; each_trial i Hi.
  - intros a Ha. rewrite !elem_of_cons, elem_of_nil in Ha.
    destruct Ha as [->|[->|[->|[]]]]; vm_compute; reflexivity.
Qed.

(** C8: the tutorials handle no exception.  Whatever call raises, and
    whatever it raises, the run stops there with that exception: the event
    that raised is the last of the log and nothing before it raised.  A run
    returns only if no event raised. *)
Theorem C8_exceptions_propagate g :
  outcome_logged (run_nested g) /\
  outcome_logged (run_cv_predict g) /\
  ((run_nested g).1 = Ok tt <-> clean (log (run_nested g).2)) /\
  ((run_cv_predict g).1 = Ok tt <-> clean (log (run_cv_predict g).2)).
Proof.
  assert (Hn : outcome_logged (run_nested g))
    by (apply propagates_nested_notebook; constructor).
  assert (Hp : outcome_logged (run_cv_predict g))
    by (apply propagates_cv_predict_page; constructor).
  split_and!; [done | done | |].
  - destruct (run_nested g) as [[[]|e] k]; simpl in *;
      (split; [done|]); intros Hclean.
    + done.
    + destruct (clean_not_raised _ _ Hclean Hn).
  - destruct (run_cv_predict g) as [[[]|e] k]; simpl in *;
      (split; [done|]); intros Hclean.
    + done.
    + destruct (clean_not_raised _ _ Hclean Hp).
Qed.

(** C9: after a run the three arrays have 30 entries; for every trial [i]
    the entry [i] of [nested_scores] is the mean of the scores that
    [cross_val_score] returned in that trial, one for each of the 4 outer
    folds, and the entry [i] of [score_difference] is the entry of
    [non_nested_scores] minus the entry of [nested_scores].  The run returns
    when no call fails and the dataset has a target for every row and at
    least six rows. *)
Theorem C9_nested_scores g :
  (no_faults -> length iris_data = length iris_target ->
   6 <= length iris_target -> (run_nested g).1 = Ok tt) /\
  ((run_nested g).1 = Ok tt ->
   exists non_nested_scores nested_scores score_difference,
     arrays (run_nested g).2 !! "non_nested_scores" = Some non_nested_scores /\
     arrays (run_nested g).2 !! "nested_scores" = Some nested_scores /\
     arrays (run_nested g).2 !! "score_difference" = Some score_difference /\
     length non_nested_scores = 30 /\
     length nested_scores = 30 /\
     length score_difference = 30 /\
     forall i, i < 30 ->
       exists nested_score a b g1 g2,
         cross_val_score (trial_clf (mkSVC "rbf" []) i) iris_data iris_target
           (trial_cv i) g1 = (Ok nested_score, g2) /\
         length nested_score = 4 /\
         nested_scores !! i = Some (nd_mean nested_score) /\
         non_nested_scores !! i = Some a /\
         nested_scores !! i = Some b /\
         score_difference !! i = Some (f_sub a b)).
Proof.
  split; [intros; by apply run_nested_returns|].
  unfold run_nested. destruct (nested_notebook _) as [r k] eqn:Hrun.
  simpl. intros ->.
  apply nested_notebook_Ok in Hrun
    as (_ & nn & ns & Hnn & Hns & Hsd & Hlen & Hlen' & Htrials).
  unfold NUM_TRIALS in *.
  exists nn, ns, (zip_with f_sub nn ns). split_and!; auto.
  - rewrite length_zip_with. lia.
  - intros i Hi.
    destruct (Htrials i Hi) as (fitted & scores & g1 & g2 & g3 & _ & Hcv & Ha & Hb).
    exists scores, (best_score_ fitted), (nd_mean scores), g2, g3.
    split_and!; auto.
    + by apply cross_val_score_length in Hcv.
    + rewrite lookup_zip_with, Ha, Hb. done.
Qed.

(** C10: in every trial the two splitters are constructed with the same
    parameters, [n_splits=4, shuffle=True, random_state=i]; two splitters so
    constructed cut any number of samples into the same folds, whatever the
    state of the global generator; and two runs of the notebook that differ
    in the state of the global generator end with the same result, the same
    log and the same arrays. *)
Theorem C10_deterministic g g' :
  (run_nested g).1 = Ok tt ->
  omap kfold_params (calls (log (run_nested g).2)) =
    flat_map (fun i => [ (4, true, Some (Z.of_nat i));
                         (4, true, Some (Z.of_nat i)) ]) (range NUM_TRIALS) /\
  (forall i inner_cv outer_cv n g1 g2,
     KFold_init 4 true (Some (Z.of_nat i)) = Ok inner_cv ->
     KFold_init 4 true (Some (Z.of_nat i)) = Ok outer_cv ->
     (split inner_cv n g1).1 = (split outer_cv n g2).1) /\
  (run_nested g').1 = (run_nested g).1 /\
  log (run_nested g').2 = log (run_nested g).2 /\
  arrays (run_nested g').2 = arrays (run_nested g).2.
Proof.
  intros Hrun. split_and!.
  - unfold calls. rewrite (run_nested_events g Hrun). done.
  - intros i inner_cv outer_cv n g1 g2 [= <-] [= <-].
    destruct (generator_free_split (trial_cv i) n (own_generator_trial_cv i))
      as [r Hr].
    unfold trial_cv in Hr. by rewrite !Hr.
  - by rewrite (run_nested_reseed g g').
  - by rewrite (run_nested_reseed g g').
  - by rewrite (run_nested_reseed g g').
Qed.

(** ** The events of a run that may fail *)

Lemma events_record k ev st :
  events (log (record ev st k)) = events (log k) ++ [ev].
Proof. unfold events, record. simpl. by rewrite fmap_app. Qed.

Lemma follows_ret {A} (a : A) o : follows (ret a) o [] o (fun x => x = a).
Proof. intros k Hk. simpl. by rewrite app_nil_r. Qed.

Lemma follows_ret_any {A} (a : A) o : follows (ret a) o [] o (fun _ => True).
Proof. intros k Hk. simpl. by rewrite app_nil_r. Qed.

Lemma follows_bind {A B} (m : M A) (f : A -> M B) o evs1 o1 Q evs2 o2 R :
  follows m o evs1 o1 Q ->
  (forall a, Q a -> follows (f a) o1 evs2 o2 R) ->
  follows (bind m f) o (evs1 ++ evs2) o2 R.
Proof.
  intros Hm Hf k Hk. unfold bind. specialize (Hm k Hk).
  destruct (m k) as [[a|e] k1].
  - destruct Hm as (Hlog & Hobj & HQ). specialize (Hf a HQ k1 Hobj).
    destruct (f a k1) as [[b|e] k2].
    + destruct Hf as (Hlog' & Hobj' & HR).
      rewrite Hlog', Hlog, <- app_assoc. done.
    + destruct Hf as (pre & Hpre & Hlog').
      exists (evs1 ++ pre). split; [by apply prefix_app|].
      rewrite Hlog', Hlog, <- app_assoc. done.
  - destruct Hm as (pre & Hpre & Hlog).
    exists pre. split; [|done]. by apply prefix_app_r.
Qed.

Lemma follows_weaken {A} (m : M A) o evs evs' o' o'' (Q Q' : A -> Prop) :
  follows m o evs o' Q ->
  evs = evs' -> o' = o'' -> (forall a, Q a -> Q' a) ->
  follows m o evs' o'' Q'.
Proof.
  intros Hm <- <- HQ k Hk. specialize (Hm k Hk).
  destruct (m k) as [[a|e] k1]; [|done].
  destruct Hm as (Hlog & Hobj & Ha). auto.
Qed.

Lemma follows_invoke_post {A} c (body : L A) o (Q : A -> Prop) :
  (forall g a g', body g = (Ok a, g') -> Q a) ->
  follows (invoke c body) o [Call c] o Q.
Proof.
  intros HQ k Hk. unfold invoke.
  destruct (fault _ _) as [e|]; cbv beta iota.
  - exists [Call c]. by rewrite events_record.
  - destruct (body _) as [[a|e] g] eqn:Hbody; cbv beta iota.
    + rewrite events_record. eauto.
    + exists [Call c]. by rewrite events_record.
Qed.

Lemma follows_invoke {A} c (body : L A) o :
  follows (invoke c body) o [Call c] o (fun _ => True).
Proof. by apply follows_invoke_post. Qed.

Lemma follows_invoke_ret {A} c (v : A) o :
  follows (invoke c (ret v)) o [Call c] o (fun a => a = v).
Proof.
  intros k Hk. unfold invoke.
  destruct (fault _ _) as [e|]; [|unfold ret]; cbv beta iota.
  - exists [Call c]. by rewrite events_record.
  - by rewrite events_record.
Qed.

Lemma follows_shell cmd o :
  follows (shell cmd) o [Call (shell_c cmd)] o (fun _ => True).
Proof. intros k Hk. unfold shell. cbv beta iota. by rewrite events_record. Qed.

Lemma follows_new_obj o : follows new_obj o [] (S o) (fun a => a = o).
Proof. intros k Hk. simpl. by rewrite app_nil_r, Hk. Qed.

Lemma follows_read_var a o :
  follows (read_var a) o [ReadVar a] o (fun _ => True).
Proof.
  intros k Hk. unfold read_var. destruct (arrays k !! a); cbv beta iota.
  - by rewrite events_record.
  - exists [ReadVar a]. by rewrite events_record.
Qed.

Lemma follows_assign a v o :
  follows (assign a v) o [Assign a] o (fun _ => True).
Proof. intros k Hk. unfold assign. cbv beta iota. by rewrite events_record. Qed.

Lemma follows_setitem a i v o :
  follows (setitem a i v) o [SetItem a i] o (fun _ => True).
Proof.
  intros k Hk. unfold setitem. destruct (arrays k !! a); cbv beta iota.
  - destruct (decide _); cbv beta iota.
    + by rewrite events_record.
    + exists [SetItem a i]. by rewrite events_record.
  - exists [SetItem a i]. by rewrite events_record.
Qed.

Lemma follows_py_SVC kern o :
  follows (py_SVC kern) o [Call (SVC_c o kern)] (S o) (fun svr => oid svr = o).
Proof.
  unfold py_SVC.
  eapply follows_weaken.
  - eapply follows_bind; [apply follows_new_obj|].
    intros self ->. apply follows_invoke_ret.
  - done.
  - done.
  - by intros a ->.
Qed.

Lemma follows_py_LinearRegression o :
  follows py_LinearRegression o [Call (LinearRegression_c o)] (S o)
    (fun lr => lr = o).
Proof.
  unfold py_LinearRegression.
  eapply follows_weaken.
  - eapply follows_bind; [apply follows_new_obj|].
    intros self ->. apply follows_invoke_ret.
  - done.
  - done.
  - by intros a ->.
Qed.

Lemma follows_py_KFold n s r o :
  follows (py_KFold n s r) o [Call (KFold_c o n s r)] (S o)
    (fun cv => oid cv = o).
Proof.
  unfold py_KFold.
  eapply follows_weaken.
  - eapply follows_bind; [apply follows_new_obj|].
    intros self ->.
    apply (follows_invoke_post _ _ _ (fun cv => oid cv = o)).
    intros g a g' (cv & g1 & _ & [-> _]%ret_Ok)%bind_Ok. done.
  - done.
  - done.
  - done.
Qed.

Lemma follows_py_GridSearchCV est pg cv o e c :
  oid est = e -> oid cv = c ->
  follows (py_GridSearchCV est pg cv) o
    [Call (GridSearchCV_c o e c)] (S o) (fun clf => oid clf = o).
Proof.
  intros <- <-. unfold py_GridSearchCV.
  eapply follows_weaken.
  - eapply follows_bind; [apply follows_new_obj|].
    intros self ->. apply follows_invoke_ret.
  - done.
  - done.
  - by intros a ->.
Qed.

(** One statement after the other; an object that a statement returns is
    known by its number in the statements that follow. *)
Ltac follow_step :=
  first
    [ apply follows_py_KFold
    | eapply follows_py_GridSearchCV; cbn [oid]; reflexivity
    | apply follows_py_SVC | apply follows_py_LinearRegression
    | apply follows_read_var | apply follows_assign | apply follows_setitem
    | apply follows_shell | apply follows_invoke_ret | apply follows_invoke
    | apply follows_ret | apply follows_ret_any ].

Ltac follow_intro :=
  let a := fresh "a" in
  let Ha := fresh "Ha" in
  intros a Ha; cbv beta in Ha;
  lazymatch type of a with
  | ref _ => destruct a as [? ?]; simpl in Ha; subst; cbn [oid obj]
  | _ => subst
  end;
  cbv zeta.

Ltac following_with loop :=
  first
    [ follow_step
    | loop
    | eapply follows_bind;
        [ following_with loop | follow_intro; following_with loop ] ].

Ltac following := following_with fail.

Lemma follows_trial svr X y i o :
  follows (trial svr X y i) o (trial_events (oid svr) o i) (S (S (S o)))
    (fun _ => True).
Proof.
  unfold trial, py_fit, py_cross_val_score, py_reduce.
  eapply follows_weaken; [following | done | done | done].
Qed.

Lemma follows_loop svr X y e n : forall a o,
  oid svr = e ->
  follows (for_each (seq a n) (trial svr X y)) o
    (trials_from e o a n) (3 * n + o) (fun _ => True).
Proof.
  induction n as [|n IH]; intros a o <-.
  - eapply follows_weaken; [apply follows_ret | done | done | done].
  - change (for_each (seq a (S n)) (trial svr X y))
      with (trial svr X y a ;;; for_each (seq (S a) n) (trial svr X y)).
    eapply follows_weaken.
    + eapply follows_bind; [apply follows_trial|]. intros _ _. by apply IH.
    + done.
    + lia.
    + done.
Qed.

Lemma follows_nested_notebook :
  follows nested_notebook 0 nested_events 91 (fun _ => True).
Proof.
  unfold nested_notebook, version_cell, imports_cell, calculations,
    plot_results, publish_cell, py_display_HTML, py_import, py_load_iris,
    py_np_zeros, py_subtract, py_reduce, py_print, py_make_subplots,
    py_Scatter, py_Bar, py_append_trace, py_update, py_iplot, py_publish,
    range.
  eapply follows_weaken;
    [ following_with ltac:(eapply follows_loop; cbn [oid]; reflexivity)
    | vm_compute; reflexivity | reflexivity | done ].
Qed.

Lemma follows_cv_predict_page :
  follows cv_predict_page 0 cv_predict_events 1 (fun _ => True).
Proof.
  unfold cv_predict_page, cv_predict_imports, cv_predict_calculations,
    cv_predict_plot, py_import, py_load_boston, py_cross_val_predict,
    py_Scatter, py_reduce, py_Layout, py_Figure, py_iplot.
  eapply follows_weaken;
    [ following | reflexivity | reflexivity | done ].
Qed.

Lemma run_nested_prefix g :
  events (log (run_nested g).2) `prefix_of` nested_events.
Proof.
  pose proof (follows_nested_notebook (fresh g) eq_refl) as Hrun.
  unfold run_nested. destruct (nested_notebook _) as [[u|e] k]; simpl.
  - destruct Hrun as (-> & _). done.
  - destruct Hrun as (pre & Hpre & ->). done.
Qed.

Lemma run_cv_predict_prefix g :
  events (log (run_cv_predict g).2) `prefix_of` cv_predict_events.
Proof.
  pose proof (follows_cv_predict_page (fresh g) eq_refl) as Hrun.
  unfold run_cv_predict. destruct (cv_predict_page _) as [[u|e] k]; simpl.
  - destruct Hrun as (-> & _). done.
  - destruct Hrun as (pre & Hpre & ->). done.
Qed.

(** X1: whatever call fails, and wherever, the events of a run of either
    tutorial are an initial segment of the events of a run in which nothing
    fails.  Up to the failure a run does what a successful run does, in the
    same order: no statement is skipped, repeated or replaced by another. *)
Theorem X1_failing_run_is_a_prefix g :
  events (log (run_nested g).2) `prefix_of` nested_events /\
  events (log (run_cv_predict g).2) `prefix_of` cv_predict_events.
Proof. split; [apply run_nested_prefix | apply run_cv_predict_prefix]. Qed.

(** ** The arrays of scores are zero until they are written *)

Lemma zero_until_written_later k k' :
  arrays k' = arrays k -> (forall x, x ∈ log k -> x ∈ log k') ->
  zero_until_written k -> zero_until_written k'.
Proof.
  intros Harr Hlog Hk a arr Ha Harr'. rewrite Harr in Harr'.
  destruct (Hk a arr Ha Harr') as [Hlen Hzero]. split; [done|].
  intros i Hi Hnot. apply Hzero; [done|]. intros Hin. apply Hnot. auto.
Qed.

Lemma zero_until_written_record k ev st :
  zero_until_written k -> zero_until_written (record ev st k).
Proof.
  apply zero_until_written_later; [done|].
  intros x Hx. unfold record. simpl. apply elem_of_app. by left.
Qed.

Lemma keeps_ret {A} I (a : A) : keeps I (ret a).
Proof. intros k Hk. done. Qed.

Lemma keeps_bind_Ok {A B} I (m : M A) (f : A -> M B) :
  keeps I m ->
  (forall a, (exists k k', m k = (Ok a, k')) -> keeps I (f a)) ->
  keeps I (bind m f).
Proof.
  intros Hm Hf k Hk. unfold bind. specialize (Hm k Hk).
  destruct (m k) as [[a|e] k1] eqn:Hrun; simpl in *; [|done].
  apply Hf; eauto.
Qed.

Lemma keeps_bind {A B} I (m : M A) (f : A -> M B) :
  keeps I m -> (forall a, keeps I (f a)) -> keeps I (bind m f).
Proof. intros Hm Hf. apply keeps_bind_Ok; auto. Qed.

Lemma keeps_for_each {A} I (xs : list A) (body : A -> M unit) :
  (forall x, keeps I (body x)) -> keeps I (for_each xs body).
Proof.
  intros Hbody. induction xs as [|x xs IH]; simpl.
  - apply keeps_ret.
  - apply keeps_bind; auto.
Qed.

Lemma keeps_invoke {A} c (body : L A) :
  keeps zero_until_written (invoke c body).
Proof.
  intros k Hk. unfold invoke.
  destruct (fault _ _) as [e|]; simpl; [by apply zero_until_written_record|].
  destruct (body _) as [r g]; simpl.
  apply zero_until_written_record.
  revert Hk. by apply zero_until_written_later.
Qed.

Lemma keeps_shell cmd : keeps zero_until_written (shell cmd).
Proof. intros k Hk. by apply zero_until_written_record. Qed.

Lemma keeps_new_obj : keeps zero_until_written new_obj.
Proof. intros k Hk. revert Hk. by apply zero_until_written_later. Qed.

Lemma keeps_read_var a : keeps zero_until_written (read_var a).
Proof.
  intros k Hk. unfold read_var.
  destruct (arrays k !! a); by apply zero_until_written_record.
Qed.

(** A variable that is not one of the two arrays. *)
Lemma keeps_assign_other a v :
  a ∉ ["non_nested_scores"; "nested_scores"] ->
  keeps zero_until_written (assign a v).
Proof.
  intros Hne k Hk b arr Hb Harr. unfold assign in *. simpl in *.
  rewrite lookup_insert_ne in Harr by (intros ->; done).
  destruct (Hk b arr Hb Harr) as [Hlen Hzero]. split; [done|].
  intros i Hi Hnot. apply Hzero; [done|].
  intros Hin. apply Hnot, elem_of_app. by left.
Qed.

(** An array as [np.zeros(NUM_TRIALS)] returns it. *)
Lemma keeps_assign_zeros a :
  keeps zero_until_written (assign a (replicate NUM_TRIALS f_zero)).
Proof.
  intros k Hk b arr Hb Harr. unfold assign in *. simpl in *.
  destruct (decide (a = b)) as [->|Hne].
  - rewrite lookup_insert_eq in Harr. injection Harr as <-.
    split; [apply length_replicate|].
    intros i Hi _. by apply lookup_replicate_2.
  - rewrite lookup_insert_ne in Harr by done.
    destruct (Hk b arr Hb Harr) as [Hlen Hzero]. split; [done|].
    intros i Hi Hnot. apply Hzero; [done|].
    intros Hin. apply Hnot, elem_of_app. by left.
Qed.

Lemma keeps_setitem a i v : keeps zero_until_written (setitem a i v).
Proof.
  intros k Hk. unfold setitem.
  destruct (arrays k !! a) as [arr|] eqn:Ha; simpl;
    [|by apply zero_until_written_record].
  destruct (decide _) as [Hi|]; simpl; [|by apply zero_until_written_record].
  intros b arr' Hb Harr'. unfold record in *. simpl in *.
  destruct (decide (a = b)) as [->|Hne].
  - rewrite lookup_insert_eq in Harr'. injection Harr' as <-.
    destruct (Hk b arr Hb Ha) as [Hlen Hzero].
    split; [by rewrite length_insert|].
    intros j Hj Hnot.
    assert (i <> j) as Hij.
    { intros ->. apply Hnot, elem_of_app. right. by apply list_elem_of_singleton. }
    rewrite list_lookup_insert_ne by done. apply Hzero; [done|].
    intros Hin. apply Hnot, elem_of_app. by left.
  - rewrite lookup_insert_ne in Harr' by done.
    destruct (Hk b arr' Hb Harr') as [Hlen Hzero]. split; [done|].
    intros j Hj Hnot. apply Hzero; [done|].
    intros Hin. apply Hnot, elem_of_app. by left.
Qed.

Create HintDb keeping discriminated.

#[local] Hint Resolve keeps_ret keeps_invoke keeps_shell keeps_new_obj
  keeps_read_var keeps_setitem keeps_assign_zeros : keeping.

Ltac not_a_score :=
  let Hin := fresh "Hin" in
  intros Hin;
  repeat (apply elem_of_cons in Hin as [?|Hin]; [done|]);
  by apply elem_of_nil in Hin.

Ltac keeping :=
  repeat first
    [ solve [auto with keeping]
    | apply keeps_assign_other; solve [not_a_score]
    | apply keeps_for_each; intros ?
    | apply keeps_bind; [|intros ?] ].

Lemma keeps_trial svr X y i : keeps zero_until_written (trial svr X y i).
Proof.
  unfold trial, py_KFold, py_GridSearchCV, py_fit, py_cross_val_score,
    py_reduce.
  keeping.
Qed.

#[local] Hint Resolve keeps_trial : keeping.

Lemma keeps_zeros_assigned a :
  keeps zero_until_written
    (zeros <- py_np_zeros NUM_TRIALS ;; assign a zeros).
Proof.
  apply keeps_bind_Ok; [apply keeps_invoke|].
  intros zeros (k & k' & (-> & _)%invoke_ret_Ok). apply keeps_assign_zeros.
Qed.

Lemma keeps_nested_notebook : keeps zero_until_written nested_notebook.
Proof.
  unfold nested_notebook, calculations.
  apply keeps_bind; [unfold version_cell, py_import; keeping|]. intros _.
  apply keeps_bind; [unfold imports_cell, py_import; keeping|]. intros _.
  apply keeps_bind.
  { apply keeps_bind; [unfold py_load_iris; keeping|]. intros iris. cbv zeta.
    apply keeps_bind; [unfold py_SVC; keeping|]. intros svr.
    apply keeps_bind_Ok; [apply keeps_invoke|].
    intros zeros (k & k' & (-> & _)%invoke_ret_Ok).
    apply keeps_bind; [apply keeps_assign_zeros|]. intros _.
    apply keeps_bind_Ok; [apply keeps_invoke|].
    intros zeros (k1 & k1' & (-> & _)%invoke_ret_Ok).
    apply keeps_bind; [apply keeps_assign_zeros|]. intros _.
    unfold py_subtract, py_reduce, py_print. keeping. }
  intros _.
  unfold plot_results, publish_cell, py_display_HTML, py_import,
    py_make_subplots, py_Scatter, py_Bar, py_append_trace, py_update,
    py_iplot, py_publish.
  keeping.
Qed.

(** X2: at whatever point a run of the notebook ends, by returning or by an
    exception, each of the two arrays of scores, once it is bound, has an
    entry for every trial, and every entry that no statement of the run
    assigned is still the zero that [np.zeros] put there. *)
Theorem X2_scores_zero_until_written g :
  forall a arr, a ∈ ["non_nested_scores"; "nested_scores"] ->
    arrays (run_nested g).2 !! a = Some arr ->
    length arr = NUM_TRIALS /\
    forall i, i < NUM_TRIALS ->
      (SetItem a i, None) ∉ log (run_nested g).2 ->
      arr !! i = Some f_zero.
Proof.
  apply keeps_nested_notebook.
  intros a arr _ Harr. unfold fresh in Harr. simpl in Harr.
  by rewrite lookup_empty in Harr.
Qed.

(** ** The figures *)

(** A cell run when no call fails: the calls go through and the variables
    are found. *)
Ltac evaluate_step Hfault :=
  match goal with
  | |- context [fault ?n ?c] => rewrite (Hfault n c)
  | E : arrays ?k !! ?a = Some _ |- context [arrays ?k !! ?a] => rewrite E
  | |- context [(<[?i:=?x]> ?m) !! ?i] => rewrite (lookup_insert_eq m i x)
  | |- context [(<[?i:=?x]> ?m) !! ?j] =>
      rewrite (lookup_insert_ne m i j x) by done
  | |- context [@lookup _ _ _ _ ?i (@empty _ _)] => rewrite (lookup_empty i)
  | |- context [decide (?a <= ?b)] =>
      rewrite (decide_False (P:=a <= b)) by lia
  | |- context [decide (?P /\ ?Q)] =>
      rewrite (decide_True (P:=P /\ Q)) by (cbn [grid_rows grid_cols]; lia)
  end.

Ltac evaluate Hfault :=
  unfold bind, invoke, read_var, assign, new_obj, ret, fresh, record;
  cbn [log arrays next_obj np_random status_of fst snd];
  repeat (evaluate_step Hfault;
          cbn [log arrays next_obj np_random status_of fst snd
               grid_rows grid_cols traces]).




(** ** The classifier is shared *)

(** X5: the notebook constructs one [SVC], before the loop, and every one of
    the thirty searches is given this same object as its estimator; nothing
    else uses it: it is never fitted or scored itself. *)
Theorem X5_one_classifier_for_all_searches g :
  (run_nested g).1 = Ok tt ->
  uses_of 0 (log (run_nested g).2) =
    SVC_c 0 "rbf"
    :: map (fun i => GridSearchCV_c (3 + 3 * i) 0 (1 + 3 * i)) (range NUM_TRIALS).
Proof.
  intros Hrun. unfold uses_of, calls.
  rewrite (run_nested_events g Hrun). vm_compute. reflexivity.
Qed.

(** ** The page and the global generator *)

(** X6: the page sets no seed and needs none.  Its ten folds are cut
    without shuffling, so that two runs that start with the global generator
    in different states end alike, by returning or by the same exception,
    with the same log and the same variables; and the page leaves the
    generator in the state it found it in. *)
Theorem X6_page_ignores_generator g g' :
  (run_cv_predict g').1 = (run_cv_predict g).1 /\
  log (run_cv_predict g').2 = log (run_cv_predict g).2 /\
  arrays (run_cv_predict g').2 = arrays (run_cv_predict g).2 /\
  np_random (run_cv_predict g).2 = g.
Proof.
  assert (Hseed : forall g0 g1,
            run_cv_predict g1
            = ((run_cv_predict g0).1, reseed g1 (run_cv_predict g0).2)).
  { intros g0 g1. unfold run_cv_predict.
    by rewrite <- seeded_cv_predict_page. }
  rewrite (Hseed g g'). split_and!; try done.
  by rewrite (Hseed g g).
Qed.

(** ** Cells run out of order, data too small *)

(** X7: the plotting cells need the variables of the calculations.  When the
    notebook is run without its calculations cell and no call fails, it
    stops in the plotting cell, after [make_subplots], with a [NameError]
    for [non_nested_scores]; the page run without its calculations stops at
    the first statement of its plotting cell with a [NameError] for [y].
    In both cases nothing is plotted. *)
Theorem X7_plot_needs_calculations g :
  no_faults ->
  let notebook :=
    (version_cell ;;; imports_cell ;;;
     fig <- plot_results ;; py_iplot fig ;;; publish_cell) (fresh g) in
  let page := (cv_predict_imports ;;; cv_predict_plot) (fresh g) in
  notebook.1 = Raise (NameError "non_nested_scores") /\
  events (log notebook.2) =
    take 8 opening_events
    ++ [Call (make_subplots_c 2 1); ReadVar "non_nested_scores"] /\
  page.1 = Raise (NameError "y") /\
  events (log page.2) = take 5 cv_predict_events ++ [ReadVar "y"].
Proof.
  intros Hfault notebook page. subst notebook page.
  unfold version_cell, imports_cell, plot_results, cv_predict_imports,
    cv_predict_plot, py_import, py_make_subplots.
  evaluate Hfault. done.
Qed.


Lemma cross_val_predict_rejects X y cv :
  2 <= cv -> ~ (length X = length y /\ cv <= length y) ->
  exists msg, forall g, cross_val_predict X y cv g = (Raise (ValueError msg), g).
Proof.
  intros Hcv Hnot. unfold cross_val_predict, indexable.
  destruct (decide (length X = length y)) as [Hlen|Hlen].
  - unfold lift, KFold_init, split, bind, ret.
    rewrite decide_False by lia. cbn [n_splits].
    rewrite length_zip_with, decide_True by lia. eexists. done.
  - eexists. done.
Qed.

(** X8: when no call fails, the page returns exactly when the dataset has a
    target for every row and at least ten rows, one for each of the ten
    folds.  Otherwise [cross_val_predict] raises a [ValueError] and the run
    ends there: the variable [predicted] is never bound and no figure is
    built or plotted. *)
Theorem X8_page_needs_ten_rows g :
  no_faults ->
  ((run_cv_predict g).1 = Ok tt <->
   length boston_data = length boston_target /\ 10 <= length boston_target) /\
  ((run_cv_predict g).1 <> Ok tt ->
   (exists msg, (run_cv_predict g).1 = Raise (ValueError msg)) /\
   events (log (run_cv_predict g).2) = take 10 cv_predict_events /\
   arrays (run_cv_predict g).2 !! "predicted" = None).
Proof.
  intros Hfault.
  assert (Hreturns : length boston_data = length boston_target /\
                     10 <= length boston_target -> (run_cv_predict g).1 = Ok tt).
  { intros [Hlen Hn]. by apply run_cv_predict_returns. }
  split.
  - split; [|done].
    unfold run_cv_predict. destruct (cv_predict_page _) as [r k] eqn:Hrun.
    simpl. intros ->.
    apply cv_predict_page_Ok in Hrun as (_ & predicted & g' & Hrun & _).
    apply cross_val_predict_accepts in Hrun. lia.
  - intros Hfails.
    destruct (cross_val_predict_rejects boston_data boston_target 10)
      as [msg Hrejects]; [lia | tauto |].
    clear Hreturns Hfails.
    unfold run_cv_predict, cv_predict_page, cv_predict_imports,
      cv_predict_calculations, py_import, py_LinearRegression, py_load_boston,
      py_cross_val_predict.
    evaluate Hfault. rewrite Hrejects.
    cbn [log arrays next_obj np_random status_of fst snd].
    split_and!; [by eexists | reflexivity |].
    by rewrite lookup_insert_ne, lookup_empty.
Qed.

Lemma GridSearchCV_fit_rejects gs X y :
  ~ (length X = length y /\ n_splits (cv gs) <= length y) ->
  exists msg, forall g, GridSearchCV_fit gs X y g = (Raise (ValueError msg), g).
Proof.
  intros Hnot. unfold GridSearchCV_fit, indexable.
  destruct (decide (length X = length y)) as [Hlen|Hlen].
  - unfold split, bind, ret. simpl.
    rewrite length_zip_with, decide_True by lia. eexists. done.
  - eexists. done.
Qed.

Lemma GridSearchCV_fit_accepts gs X y g fitted g' :
  GridSearchCV_fit gs X y g = (Ok fitted, g') ->
  length X = length y /\ n_splits (cv gs) <= length y.
Proof.
  unfold GridSearchCV_fit.
  intros (data & g1 & (-> & Hlen & Hzip & _)%indexable_Ok & Hrun)%bind_Ok.
  apply bind_Ok in Hrun as (masks & g2 & (_ & Hn & _)%split_Ok & _). lia.
Qed.

Lemma for_each_cons {S A} (x : A) xs (body : A -> ST S unit) s :
  for_each (x :: xs) body s = (body x ;;; for_each xs body) s.
Proof. reflexivity. Qed.

#[local] Arguments for_each : simpl never.

(** X9: the notebook cuts the rows in four folds, and needs a target for
    every row and at least four rows.  When no call fails and the dataset
    has less, the first [clf.fit] raises a [ValueError] and the run ends
    there, in the first trial, with the two arrays of scores still all
    zeros. *)
Theorem X9_notebook_needs_four_rows g :
  no_faults ->
  ((run_nested g).1 = Ok tt ->
   length iris_data = length iris_target /\ 4 <= length iris_target) /\
  (~ (length iris_data = length iris_target /\ 4 <= length iris_target) ->
   (exists msg, (run_nested g).1 = Raise (ValueError msg)) /\
   events (log (run_nested g).2) =
     opening_events ++ take 4 (trial_events 0 1 0) /\
   arrays (run_nested g).2 !! "non_nested_scores"
     = Some (replicate NUM_TRIALS f_zero) /\
   arrays (run_nested g).2 !! "nested_scores"
     = Some (replicate NUM_TRIALS f_zero)).
Proof.
  intros Hfault. split.
  - unfold run_nested. destruct (nested_notebook _) as [r k] eqn:Hrun.
    simpl. intros ->.
    apply nested_notebook_Ok in Hrun
      as (_ & nn & ns & _ & _ & _ & _ & _ & Htrials).
    destruct (Htrials 0) as (fitted & scores & g1 & g2 & g3 & Hfit & _);
      [unfold NUM_TRIALS; lia|].
    apply GridSearchCV_fit_accepts in Hfit. done.
  - intros Hsmall.
    destruct (GridSearchCV_fit_rejects (trial_clf (mkSVC "rbf" []) 0)
                iris_data iris_target Hsmall) as [msg Hrejects].
    unfold run_nested, nested_notebook, version_cell, imports_cell,
      calculations, py_import, py_load_iris, py_SVC, py_np_zeros, range.
    evaluate Hfault.
    change (seq 0 NUM_TRIALS) with (0 :: seq 1 29). rewrite for_each_cons.
    unfold trial, py_KFold, py_GridSearchCV, py_fit, lift, KFold_init.
    evaluate Hfault.
    unfold trial_clf, trial_cv in Hrejects. cbn [oid obj].
    rewrite Hrejects.
    cbn [log arrays next_obj np_random status_of fst snd].
    split_and!; [by eexists | reflexivity | |].
    + by rewrite lookup_insert_ne, lookup_insert_eq.
    + by rewrite lookup_insert_eq.
Qed.

(** ** Running the calculations again *)

Ltac same_map :=
  apply map_eq; intros ?; rewrite !lookup_insert;
  repeat case_decide; simplify_eq; done.

Lemma loop_arrays svr X y n : forall a k u k',
  for_each (seq a (S n)) (trial svr X y) k = (Ok u, k') ->
  exists nn ns scores g g',
    arrays k' =
      <["nested_scores" := ns]>
        (<["nested_score" := scores]>
           (<["non_nested_scores" := nn]> (arrays k))) /\
    cross_val_score (trial_clf (obj svr) (a + n)) X y (trial_cv (a + n)) g
      = (Ok scores, g').
Proof.
  induction n as [|n IH]; intros a k u k' Hrun;
    cbn [seq] in Hrun; rewrite for_each_cons in Hrun;
    apply bind_Ok in Hrun as (u1 & k1 & Htrial & Hrest);
    apply trial_Ok in Htrial
      as (fitted & scores & g1 & g2 & nn0 & ns0 & _ & Hcv & _ & _ & _ & _ & _
          & Harr & _).
  - apply ret_Ok in Hrest as [_ ->]. rewrite Nat.add_0_r. eauto 10.
  - apply IH in Hrest as (nn & ns & scores' & g & g' & Harr' & Hcv').
    replace (a + S n) with (S a + n) by lia.
    exists nn, ns, scores', g, g'. split; [|done].
    rewrite Harr', Harr. same_map.
Qed.

Lemma calculations_Ok k u k' :
  calculations k = (Ok u, k') ->
  exists nn ns scores,
    arrays k' =
      <["score_difference" := zip_with f_sub nn ns]>
        (<["nested_scores" := ns]>
           (<["nested_score" := scores]>
              (<["non_nested_scores" := nn]> (arrays k)))) /\
    length nn = NUM_TRIALS /\ length ns = NUM_TRIALS /\
    (forall j, j < NUM_TRIALS ->
       trial_outcome (mkSVC "rbf" []) iris_data iris_target j nn ns) /\
    (exists g g',
       cross_val_score (trial_clf (mkSVC "rbf" []) 29) iris_data iris_target
         (trial_cv 29) g = (Ok scores, g')) /\
    next_obj k' = 91 + next_obj k.
Proof.
  intros Hrun. unfold calculations, range in Hrun.
  run Hrun.
  match goal with
  | Hloop : for_each _ _ _ = _ |- _ =>
      pose proof Hloop as Hloop';
      eapply loop_Ok in Hloop
        as (nn & ns & Hnn & Hns & Hlen & Hlen' & _ & Hnew & Hlog & Hobj);
        [| by (chain; find_var) | by (chain; find_var)];
      apply (loop_arrays _ _ _ 29 0) in Hloop'
        as (nn' & ns' & scores & g & g' & Harr & Hcv)
  end.
  rewrite length_replicate in Hlen, Hlen'.
  rewrite Harr in Hnn, Hns. find_vars.
  unchain. find_vars.
  match goal with
  | Hsub : lift (nd_subtract _ _) _ = _ |- _ =>
      unfold lift, nd_subtract in Hsub;
      rewrite decide_True in Hsub by congruence; simplify_eq
  end.
  eexists _, _, scores. split_and!; [same_map | eauto ..].
  intros j Hj. apply Hnew. lia.
Qed.

Lemma trial_outcome_unique svr X y j nn ns nn' ns' :
  trial_outcome svr X y j nn ns -> trial_outcome svr X y j nn' ns' ->
  nn !! j = nn' !! j /\ ns !! j = ns' !! j.
Proof.
  intros (fitted & scores & g1 & g2 & g3 & Hfit & Hcv & -> & ->)
         (fitted' & scores' & g1' & g2' & g3' & Hfit' & Hcv' & -> & ->).
  destruct (generator_free_GridSearchCV_fit (trial_clf svr j) X y
              (own_generator_trial_cv j)) as [r Hr].
  destruct (generator_free_cross_val_score (trial_clf svr j) X y (trial_cv j)
              (own_generator_trial_cv j) (own_generator_trial_cv j))
    as [r' Hr'].
  rewrite Hr in Hfit, Hfit'. rewrite Hr' in Hcv, Hcv'. by simplify_eq.
Qed.

(** X10: running the calculations cell a second time changes no variable.
    The cell creates 91 new objects, one classifier and for each trial two
    splitters and a search, and computes every score anew, but the seeds of
    the splitters make the scores come out the same, so that all the
    variables of the session are after the second run what they were after
    the first. *)
Theorem X10_calculations_again k k1 k2 :
  calculations k = (Ok tt, k1) ->
  calculations k1 = (Ok tt, k2) ->
  arrays k2 = arrays k1 /\ next_obj k2 = 91 + next_obj k1.
Proof.
  intros (nn & ns & sc & Harr & Hlen & Hlen' & Htrials & (g & g' & Hsc) & _)
           %calculations_Ok
         (nn' & ns' & sc' & Harr' & Hlen1 & Hlen1' & Htrials' & (g1 & g1' & Hsc')
          & Hobj)%calculations_Ok.
  split; [|done].
  assert (nn' = nn /\ ns' = ns) as [-> ->].
  { split; apply list_eq; intros j;
      (destruct (decide (j < NUM_TRIALS)) as [Hj|Hj];
       [ by destruct (trial_outcome_unique _ _ _ _ _ _ _ _
                        (Htrials' j Hj) (Htrials j Hj))
       | rewrite !lookup_ge_None_2 by lia; done ]). }
  assert (sc' = sc) as ->.
  { destruct (generator_free_cross_val_score
                (trial_clf (mkSVC "rbf" []) 29) iris_data iris_target
                (trial_cv 29) (own_generator_trial_cv 29)
                (own_generator_trial_cv 29)) as [r Hr].
    rewrite Hr in Hsc, Hsc'. by simplify_eq. }
  rewrite Harr', Harr. same_map.
Qed.

(** ** What has gone through when the chart is plotted *)

Lemma clean_quiet l : clean l -> l = quiet (events l).
Proof.
  intros Hl. induction Hl as [|[ev st] l Hst _ IH]; [done|].
  simpl in Hst. subst st. unfold quiet, events in *.
  rewrite !fmap_cons. cbn [fst]. by rewrite <- IH.
Qed.

Lemma clean_app_l l1 l2 : clean (l1 ++ l2) -> clean l1.
Proof. unfold clean. by intros [? _]%Forall_app. Qed.

(** Only the last event of a run can have raised: whatever is in the log
    of a run has only events that went through before it. *)
Lemma logged_after_quiet {A} (r : result A * session) all ev st :
  outcome_logged r ->
  events (log r.2) `prefix_of` all ->
  (ev, st) ∈ log r.2 ->
  exists after,
    log r.2 = quiet (take (length (log r.2) - S (length after)) all)
              ++ (ev, st) :: after /\
    all !! (length (log r.2) - S (length after)) = Some ev.
Proof.
  intros Hout [rest Hall] (l1 & l2 & Hlog)%list_elem_of_split.
  assert (clean l1) as Hclean.
  { destruct r as [[a|e] k]; simpl in *.
    - rewrite Hlog in Hout. by apply clean_app_l in Hout.
    - destruct Hout as (pre & ev' & Hpre & Hclean). rewrite Hlog in Hpre.
      destruct l2 as [|x l2 _] using rev_ind.
      + apply app_inj_tail in Hpre as [-> _]. done.
      + rewrite app_comm_cons, app_assoc in Hpre.
        apply app_inj_tail in Hpre as [<- _]. by apply clean_app_l in Hclean. }
  exists l2. rewrite Hlog in Hall |- *.
  unfold events in Hall. rewrite fmap_app, fmap_cons in Hall. simpl in Hall.
  rewrite length_app. simpl.
  replace (length l1 + S (length l2) - S (length l2)) with (length l1) by lia.
  assert (length l1 = length l1.*1) as Hlen by (by rewrite length_fmap).
  split.
  - f_equal. rewrite (clean_quiet l1 Hclean) at 1. f_equal.
    rewrite Hall, <- app_assoc, Hlen. by rewrite take_app_length.
  - rewrite Hall, <- app_assoc, Hlen. by rewrite lookup_app_r, Nat.sub_diag.
Qed.

(** Where an event that occurs once in a list is. *)
Lemma only_at (all : list event) ev n i :
  forallb (fun j => bool_decide (all !! j = Some ev -> j = n))
    (seq 0 (length all)) = true ->
  all !! i = Some ev -> i = n.
Proof.
  intros Hall Hi. rewrite forallb_forall in Hall.
  specialize (Hall i). rewrite bool_decide_eq_true in Hall.
  apply Hall; [|done]. apply in_seq. apply lookup_lt_Some in Hi. lia.
Qed.

(** X11: a chart is sent to the plotting service only when everything
    before it went through.  If the log of a run of the notebook has the
    call of [py.iplot], the events before it are those of the imports, of
    the calculations with all the thirty trials and of the plotting cell,
    none of which raised; if it has the call of [publisher.publish], the
    events before it are all the other events of the notebook, the plot
    among them, and none raised.  If the log of a run of the page has the
    call of [py.iplot], the events before it are all the other events of the
    page and none raised. *)
Theorem X11_plotted_after_all_went_through g st :
  ((Call iplot_c, st) ∈ log (run_nested g).2 ->
   exists after,
     log (run_nested g).2 =
       quiet (opening_events ++ trials_events ++ take 23 closing_events)
       ++ (Call iplot_c, st) :: after) /\
  ((Call publish_c, st) ∈ log (run_nested g).2 ->
   log (run_nested g).2 =
     quiet (opening_events ++ trials_events ++ take 31 closing_events)
     ++ [(Call publish_c, st)]) /\
  ((Call iplot_c, st) ∈ log (run_cv_predict g).2 ->
   log (run_cv_predict g).2 =
     quiet (take 25 cv_predict_events) ++ [(Call iplot_c, st)]).
Proof.
  pose proof (run_nested_prefix g) as Hnested.
  pose proof (run_cv_predict_prefix g) as Hpage.
  assert (Hn : outcome_logged (run_nested g))
    by (apply propagates_nested_notebook; constructor).
  assert (Hp : outcome_logged (run_cv_predict g))
    by (apply propagates_cv_predict_page; constructor).
  split_and!; intros Hin.
  - destruct (logged_after_quiet _ _ _ _ Hn Hnested Hin) as (after & Hlog & Hat).
    apply (only_at _ _ 337) in Hat; [|vm_compute; reflexivity].
    rewrite Hat in Hlog. exists after. rewrite Hlog at 1. reflexivity.
  - destruct (logged_after_quiet _ _ _ _ Hn Hnested Hin) as (after & Hlog & Hat).
    apply (only_at _ _ 345) in Hat; [|vm_compute; reflexivity].
    rewrite Hat in Hlog.
    assert (after = []) as ->.
    { apply prefix_length in Hnested. unfold events in Hnested.
      rewrite length_fmap in Hnested.
      change (length nested_events) with 346 in Hnested.
      destruct after; [done|]. simpl in *. lia. }
    rewrite Hlog at 1. reflexivity.
  - destruct (logged_after_quiet _ _ _ _ Hp Hpage Hin) as (after & Hlog & Hat).
    apply (only_at _ _ 25) in Hat; [|vm_compute; reflexivity].
    rewrite Hat in Hlog.
    assert (after = []) as ->.
    { apply prefix_length in Hpage. unfold events in Hpage.
      rewrite length_fmap in Hpage.
      change (length cv_predict_events) with 26 in Hpage.
      destruct after; [done|]. simpl in *. lia. }
    rewrite Hlog at 1. reflexivity.
Qed.

End Tutorials.

(** ** The tutorials run on the sample library *)



Lemma sample_no_faults : @no_faults Sample.no_fault.
Proof. intros n c. reflexivity. Qed.

Lemma C1_thirty_trials_witness :
  (@run_nested Sample.library Sample.no_fault 0).1 = Ok tt /\
  events (log (@run_nested Sample.library Sample.no_fault 0).2) =
    opening_events
    ++ flat_map (fun i => trial_events 0 (1 + 3 * i) i) (range NUM_TRIALS)
    ++ closing_events.
Proof.
  split; [vm_compute; reflexivity|].
  apply (C1_thirty_trials (H:=Sample.library) Sample.no_fault 0).
  vm_compute. reflexivity.
Defined.

Lemma C2_predictions_length_witness :
  length (@boston_data Sample.library) = length (@boston_target Sample.library) /\
  2 <= 10 <= length (@boston_target Sample.library) /\
  exists predicted g',
    @cross_val_predict Sample.library boston_data boston_target 10 0
      = (Ok predicted, g') /\
    length predicted = length (@boston_target Sample.library).
Proof.
  assert (Hlen : length (@boston_data Sample.library)
                 = length (@boston_target Sample.library)) by reflexivity.
  assert (Hcv : 2 <= 10 <= length (@boston_target Sample.library))
    by (simpl; lia).
  split; [exact Hlen|]. split; [exact Hcv|].
  destruct (C2_predictions_length (H:=Sample.library)
              boston_data boston_target 10 0) as [[_ Hreturns] Hlength].
  destruct (Hreturns (conj Hlen Hcv)) as (predicted & g' & Hrun).
  exists predicted, g'. split; [exact Hrun|]. exact (Hlength _ _ Hrun).
Defined.



Lemma C5_stages_in_order_witness :
  (@run_nested Sample.library Sample.no_fault 0).1 = Ok tt /\
  (@run_cv_predict Sample.library Sample.no_fault 0).1 = Ok tt /\
  stages (log (@run_nested Sample.library Sample.no_fault 0).2) =
    [LoadData] ++ replicate (2 * NUM_TRIALS) FitEvaluate
    ++ replicate 12 RenderChart ++ replicate 6 PublishPage /\
  stages (log (@run_cv_predict Sample.library Sample.no_fault 0).2) =
    [LoadData] ++ replicate 1 FitEvaluate ++ replicate 5 RenderChart.
Proof.
  assert (Hrun : (@run_nested Sample.library Sample.no_fault 0).1 = Ok tt)
    by (vm_compute; reflexivity).
  assert (Hrun' : (@run_cv_predict Sample.library Sample.no_fault 0).1 = Ok tt)
    by (vm_compute; reflexivity).
  split; [exact Hrun|]. split; [exact Hrun'|].
  destruct (C5_stages_in_order (H:=Sample.library) Sample.no_fault 0 0 Hrun Hrun')
    as (Hnested & _ & Hpage & _).
  split; [exact Hnested | exact Hpage].
Defined.

(** The notebook does not end with its chart: the publishing cell comes
    after it. *)
Lemma C5_counterexample :
  (@run_nested Sample.library Sample.no_fault 0).1 = Ok tt /\
  ~ load_fit_render (stages (log (@run_nested Sample.library Sample.no_fault 0).2)).
Proof.
  split; [vm_compute; reflexivity|].
  intros (n & m & Heq).
  assert (Hin : PublishPage ∈
            stages (log (@run_nested Sample.library Sample.no_fault 0).2)).
  { apply list_elem_of_lookup. exists 73. vm_compute. reflexivity. }
  rewrite Heq in Hin.
  rewrite !elem_of_app, !elem_of_replicate, list_elem_of_singleton in Hin.
  destruct Hin as [?|[[? _]|[? _]]]; discriminate.
Qed.

Lemma C6_input_output_witness :
  (@run_nested Sample.library Sample.no_fault 0).1 = Ok tt /\
  (@run_cv_predict Sample.library Sample.no_fault 0).1 = Ok tt /\
  io_calls (log (@run_cv_predict Sample.library Sample.no_fault 0).2) =
    [ (load_boston_c, Disk); (iplot_c, Network) ] /\
  length (filter (fun c => c = iplot_c)
            (calls (log (@run_nested Sample.library Sample.no_fault 0).2))) = 1.
Proof.
  assert (Hrun : (@run_nested Sample.library Sample.no_fault 0).1 = Ok tt)
    by (vm_compute; reflexivity).
  assert (Hrun' : (@run_cv_predict Sample.library Sample.no_fault 0).1 = Ok tt)
    by (vm_compute; reflexivity).
  split; [exact Hrun|]. split; [exact Hrun'|].
  destruct (C6_input_output (H:=Sample.library) Sample.no_fault 0 0 Hrun Hrun')
    as (_ & Hpage & Hone & _).
  split; [exact Hpage | exact Hone].
Defined.

(** The last cell of the notebook uses the network a second time, to
    install a package, and publishes the page. *)
Lemma C6_counterexample :
  (@run_nested Sample.library Sample.no_fault 0).1 = Ok tt /\
  ~ only_plotting_io (log (@run_nested Sample.library Sample.no_fault 0).2).
Proof.
  split; [vm_compute; reflexivity|].
  unfold only_plotting_io. intros Heq. vm_compute in Heq. discriminate.
Qed.

Lemma C7_writes_and_reads_witness :
  (@run_nested Sample.library Sample.no_fault 0).1 = Ok tt /\
  reads_of "non_nested_scores"
    (events (log (@run_nested Sample.library Sample.no_fault 0).2)) = 2 /\
  reads_of "nested_scores"
    (events (log (@run_nested Sample.library Sample.no_fault 0).2)) = 2 /\
  reads_of "score_difference"
    (events (log (@run_nested Sample.library Sample.no_fault 0).2)) = 3.
Proof.
  assert (Hrun : (@run_nested Sample.library Sample.no_fault 0).1 = Ok tt)
    by (vm_compute; reflexivity).
  split; [exact Hrun|].
  destruct (C7_writes_and_reads (H:=Sample.library) Sample.no_fault 0 Hrun)
    as (_ & _ & _ & Hnn & Hns & Hsd).
  split; [exact Hnn|]. split; [exact Hns | exact Hsd].
Defined.

(** Each of the two arrays is read twice after the loop. *)
Lemma C7_counterexample :
  (@run_nested Sample.library Sample.no_fault 0).1 = Ok tt /\
  ~ written_once_read_once
      (events (log (@run_nested Sample.library Sample.no_fault 0).2)).
Proof.
  split; [vm_compute; reflexivity|].
  intros Hspec.
  destruct (Hspec "non_nested_scores") as [_ Hreads]; [constructor|].
  vm_compute in Hreads. discriminate.
Qed.

(** A run in which the fit of the third trial fails: the run raises what the
    fit raised, the failed call is the last event of the log, and the
    remaining twenty-seven trials, the chart and the publication never
    happen. *)
Lemma failing_fit_stops_the_run :
  let fault := fun (n : nat) (c : call) =>
    match c with
    | fit_c 9 => Some (ValueError "Found array with 0 sample(s)")
    | _ => None
    end in
  (@run_nested Sample.library fault 0).1
    = Raise (ValueError "Found array with 0 sample(s)") /\
  last (log (@run_nested Sample.library fault 0).2)
    = Some (Call (fit_c 9), Some (ValueError "Found array with 0 sample(s)")) /\
  length (log (@run_nested Sample.library fault 0).2) = 38.
Proof. vm_compute. repeat split; reflexivity. Qed.

Lemma C9_nested_scores_witness :
  (@run_nested Sample.library Sample.no_fault 0).1 = Ok tt /\
  exists non_nested_scores nested_scores score_difference,
    arrays (@run_nested Sample.library Sample.no_fault 0).2
      !! "non_nested_scores" = Some non_nested_scores /\
    arrays (@run_nested Sample.library Sample.no_fault 0).2
      !! "nested_scores" = Some nested_scores /\
    arrays (@run_nested Sample.library Sample.no_fault 0).2
      !! "score_difference" = Some score_difference /\
    length non_nested_scores = 30 /\
    length nested_scores = 30 /\
    length score_difference = 30.
Proof.
  destruct (C9_nested_scores (H:=Sample.library) Sample.no_fault 0)
    as [Hreturns Hscores].
  assert (Hrun : (@run_nested Sample.library Sample.no_fault 0).1 = Ok tt).
  { apply Hreturns; [exact sample_no_faults | reflexivity | simpl; lia]. }
  split; [exact Hrun|].
  destruct (Hscores Hrun)
    as (nn & ns & sd & Hnn & Hns & Hsd & Hlen & Hlen' & Hlen'' & _).
  exists nn, ns, sd. auto 10.
Defined.

Lemma C10_deterministic_witness :
  (@run_nested Sample.library Sample.no_fault 0).1 = Ok tt /\
  (@run_nested Sample.library Sample.no_fault 5).1 =
    (@run_nested Sample.library Sample.no_fault 0).1 /\
  arrays (@run_nested Sample.library Sample.no_fault 5).2 =
    arrays (@run_nested Sample.library Sample.no_fault 0).2.
Proof.
  assert (Hrun : (@run_nested Sample.library Sample.no_fault 0).1 = Ok tt)
    by (vm_compute; reflexivity).
  split; [exact Hrun|].
  destruct (C10_deterministic (H:=Sample.library) Sample.no_fault 0 5 Hrun)
    as (_ & _ & Hres & _ & Harr).
  split; [exact Hres | exact Harr].
Defined.

(** A splitter without a seed does depend on the global generator: the
    seeds of the notebook are what makes its runs repeatable. *)
Lemma unseeded_split_depends_on_generator :
  (@split Sample.library (mkKFold 4 true None) 8 0).1
    <> (@split Sample.library (mkKFold 4 true None) 8 1).1.
Proof. vm_compute. discriminate. Qed.

(** ** The further properties on the sample library *)

(** A run in which the fit of the third trial fails leaves the scores of
    the first two trials and zeros from there on. *)
Lemma X2_scores_zero_until_written_witness :
  let fault := fun (n : nat) (c : call) =>
    match c with
    | fit_c 9 => Some (ValueError "Found array with 0 sample(s)")
    | _ => None
    end in
  exists arr,
    arrays (@run_nested Sample.library fault 0).2 !! "non_nested_scores"
      = Some arr /\
    length arr = NUM_TRIALS /\ arr !! 2 = Some 0%Q /\ arr !! 29 = Some 0%Q.
Proof.
  intros fault.
  assert (H2 : 2 < NUM_TRIALS) by (unfold NUM_TRIALS; lia).
  assert (H29 : 29 < NUM_TRIALS) by (unfold NUM_TRIALS; lia).
  assert (Hlogged : forall i, i = 2 \/ i = 29 ->
            (SetItem "non_nested_scores" i, None)
            ∉ log (@run_nested Sample.library fault 0).2).
  { clear. intros i Hi Hin. apply (list_elem_of_fmap_2 fst) in Hin.
    cbn [fst] in Hin. revert Hin.
    change (SetItem "non_nested_scores" i
            ∉ (log (@run_nested Sample.library fault 0).2).*1).
    apply (bool_decide_unpack _).
    destruct Hi as [-> | ->]; vm_compute; exact I. }
  assert (Hsome : is_Some (arrays (@run_nested Sample.library fault 0).2
                             !! "non_nested_scores"))
    by (vm_compute; eexists; reflexivity).
  destruct Hsome as [arr Harr].
  assert (Hname : "non_nested_scores"
                  ∈ ["non_nested_scores"; "nested_scores"]) by constructor.
  destruct (X2_scores_zero_until_written (H:=Sample.library) fault 0
              "non_nested_scores" arr Hname Harr) as [Hlen Hzero].
  exists arr. split; [exact Harr|]. split; [exact Hlen|].
  split; apply Hzero; first [assumption | apply Hlogged; auto].
Defined.



Lemma X5_one_classifier_for_all_searches_witness :
  (@run_nested Sample.library Sample.no_fault 0).1 = Ok tt /\
  length (uses_of 0 (log (@run_nested Sample.library Sample.no_fault 0).2)) = 31.
Proof.
  assert (Hrun : (@run_nested Sample.library Sample.no_fault 0).1 = Ok tt)
    by (vm_compute; reflexivity).
  split; [exact Hrun|].
  rewrite (X5_one_classifier_for_all_searches (H:=Sample.library)
             Sample.no_fault 0 Hrun).
  reflexivity.
Defined.

Lemma X7_plot_needs_calculations_witness :
  ((@cv_predict_imports Sample.library Sample.no_fault ;;;
    @cv_predict_plot Sample.library Sample.no_fault)
     (@fresh Sample.library 0)).1
  = Raise (NameError "y").
Proof.
  destruct (X7_plot_needs_calculations (H:=Sample.library) Sample.no_fault 0
              sample_no_faults) as (_ & _ & Hpage & _).
  exact Hpage.
Defined.

Lemma X8_page_needs_ten_rows_witness :
  length (@boston_data Sample.library) = length (@boston_target Sample.library) /\
  10 <= length (@boston_target Sample.library) /\
  (@run_cv_predict Sample.library Sample.no_fault 0).1 = Ok tt.
Proof.
  assert (Hlen : length (@boston_data Sample.library)
                 = length (@boston_target Sample.library)) by reflexivity.
  assert (Hn : 10 <= length (@boston_target Sample.library)) by (simpl; lia).
  split; [exact Hlen|]. split; [exact Hn|].
  destruct (X8_page_needs_ten_rows (H:=Sample.library) Sample.no_fault 0
              sample_no_faults) as [[_ Hreturns] _].
  exact (Hreturns (conj Hlen Hn)).
Defined.

Lemma X9_notebook_needs_four_rows_witness :
  (@run_nested Sample.library Sample.no_fault 0).1 = Ok tt /\
  length (@iris_data Sample.library) = length (@iris_target Sample.library) /\
  4 <= length (@iris_target Sample.library).
Proof.
  assert (Hrun : (@run_nested Sample.library Sample.no_fault 0).1 = Ok tt)
    by (vm_compute; reflexivity).
  split; [exact Hrun|].
  destruct (X9_notebook_needs_four_rows (H:=Sample.library) Sample.no_fault 0
              sample_no_faults) as [Haccepts _].
  exact (Haccepts Hrun).
Defined.

Lemma X10_calculations_again_witness :
  let k := @fresh Sample.library 0 in
  let k1 := (@calculations Sample.library Sample.no_fault k).2 in
  let k2 := (@calculations Sample.library Sample.no_fault k1).2 in
  arrays k2 = arrays k1 /\ next_obj k1 = 91 /\ next_obj k2 = 182.
Proof.
  intros k k1 k2.
  assert (Hfirst : @calculations Sample.library Sample.no_fault k = (Ok tt, k1)).
  { transitivity ((@calculations Sample.library Sample.no_fault k).1, k1);
      [apply surjective_pairing|].
    apply (f_equal (fun r => (r, k1))). vm_compute. reflexivity. }
  assert (Hsecond : @calculations Sample.library Sample.no_fault k1 = (Ok tt, k2)).
  { transitivity ((@calculations Sample.library Sample.no_fault k1).1, k2);
      [apply surjective_pairing|].
    apply (f_equal (fun r => (r, k2))). vm_compute. reflexivity. }
  destruct (X10_calculations_again (H:=Sample.library) Sample.no_fault k k1 k2
              Hfirst Hsecond) as [Harr Hobj].
  split; [exact Harr|]. split; [vm_compute; reflexivity|].
  rewrite Hobj. vm_compute. reflexivity.
Defined.

Lemma X11_plotted_after_all_went_through_witness :
  (Call iplot_c, None) ∈ log (@run_cv_predict Sample.library Sample.no_fault 0).2 /\
  log (@run_cv_predict Sample.library Sample.no_fault 0).2 =
    quiet (take 25 cv_predict_events) ++ [(Call iplot_c, None)].
Proof.
  assert (Hin : (Call iplot_c, None)
                ∈ log (@run_cv_predict Sample.library Sample.no_fault 0).2).
  { apply list_elem_of_lookup. exists 25. vm_compute. reflexivity. }
  split; [exact Hin|].
  destruct (X11_plotted_after_all_went_through (H:=Sample.library)
              Sample.no_fault 0 None) as (_ & _ & Hpage).
  exact (Hpage Hin).
Defined.
